(** * RemakeSoF game launcher: the zustand store and its services

    A shallow embedding of [src/services/store.ts], [authService.ts],
    [gameService.ts], [settingsService.ts], [types/index.ts] and of the
    play-button logic of [components/LauncherScreen.tsx].

    The TypeScript code is asynchronous and effectful: it reads and patches
    the store ([get]/[set]), talks to the backend ([fetch]), reads
    [localStorage], logs to the console and throws and catches exceptions.
    Every action is a finite program, so it is embedded as a finite tree of
    effects ([Action]) with [bind] for sequencing ([await]) and [tryCatch]
    for [try { } catch { }].  Two interpreters give it meaning: [run] executes
    an action to completion against a backend, [toAwait] executes it up to its
    first [await fetch(...)], which is the state other actions observe while
    the request is in flight. *)

From Stdlib Require Import String List Bool Arith ZArith Lia DecimalString.
Import ListNotations.
Local Open Scope string_scope.

(* ===================================================================== *)
(** ** src/types/index.ts *)
(* ===================================================================== *)

Module AuthResponse.
Record t : Type := mk {
  message : string;
  playerId : string;
  username : string;
  token : string;
  selectedSkinName : option string
}.
End AuthResponse.

(** A JavaScript [number] that the store only copies ([fileSize]) or sets to
    the literal [0]; no arithmetic is done on it, so an integer is enough. *)
Definition number := Z.

Module GameVersion.
Record t : Type := mk {
  version : string;
  releaseDate : string;
  downloadUrl : string;
  fileSize : number;
  checksum : string
}.
End GameVersion.

Module DownloadProgress.
Record t : Type := mk {
  downloadedBytes : number;
  totalBytes : number;
  progressPercent : number;
  speedMbps : number
}.
End DownloadProgress.

Module LauncherSettings.
Record t : Type := mk {
  serverUrl : string;
  installPath : string;
  autoUpdate : bool;
  rememberMe : bool;
  language : string
}.
End LauncherSettings.

Inductive LauncherStatus : Type :=
| IDLE
| CHECKING_VERSION
| DOWNLOADING
| INSTALLING
| READY
| UPDATING
| PLAYING
| ERROR.

Definition LauncherStatus_eqb (a b : LauncherStatus) : bool :=
  match a, b with
  | IDLE, IDLE | CHECKING_VERSION, CHECKING_VERSION
  | DOWNLOADING, DOWNLOADING | INSTALLING, INSTALLING
  | READY, READY | UPDATING, UPDATING | PLAYING, PLAYING | ERROR, ERROR => true
  | _, _ => false
  end.

(* ===================================================================== *)
(** ** The data part of [LauncherState] (store.ts, lines 7-21) *)
(* ===================================================================== *)

Module State.
Record t : Type := mk {
  isAuthenticated : bool;
  user : option AuthResponse.t;
  token : option string;
  gameVersion : option GameVersion.t;
  installedVersion : option string;
  launcherStatus : LauncherStatus;
  downloadProgress : option DownloadProgress.t;
  errorMessage : option string;
  settings : option LauncherSettings.t
}.

(** The initial state of [create<LauncherState>(...)] (lines 35-43). *)
Definition initial : t :=
  {| isAuthenticated := false;
     user := None;
     token := None;
     gameVersion := None;
     installedVersion := None;
     launcherStatus := IDLE;
     downloadProgress := None;
     errorMessage := None;
     settings := None |}.
End State.

(** One [key: value] entry of the object literal given to zustand's [set];
    [set] merges the entries into the state and leaves the other keys. *)
Module Patch.
Inductive t : Type :=
| isAuthenticated (v : bool)
| user (v : option AuthResponse.t)
| token (v : option string)
| gameVersion (v : option GameVersion.t)
| installedVersion (v : option string)
| launcherStatus (v : LauncherStatus)
| downloadProgress (v : option DownloadProgress.t)
| errorMessage (v : option string)
| settings (v : option LauncherSettings.t).

Definition apply (s : State.t) (p : t) : State.t :=
  let '(State.mk a u tk gv iv ls dp em st) := s in
  match p with
  | isAuthenticated v => State.mk v u tk gv iv ls dp em st
  | user v => State.mk a v tk gv iv ls dp em st
  | token v => State.mk a u v gv iv ls dp em st
  | gameVersion v => State.mk a u tk v iv ls dp em st
  | installedVersion v => State.mk a u tk gv v ls dp em st
  | launcherStatus v => State.mk a u tk gv iv v dp em st
  | downloadProgress v => State.mk a u tk gv iv ls v em st
  | errorMessage v => State.mk a u tk gv iv ls dp v st
  | settings v => State.mk a u tk gv iv ls dp em v
  end.

Definition merge (s : State.t) (ps : list t) : State.t := fold_left apply ps s.
End Patch.

(* ===================================================================== *)
(** ** JavaScript values the code manipulates *)
(* ===================================================================== *)

(** An [Error] object: the code only builds them with [new Error(msg)],
    receives them from a rejected promise and prints them. *)
Record JsError : Type := { errName : string; errMessage : string }.

Definition newError (msg : string) : JsError :=
  {| errName := "Error"; errMessage := msg |}.

(** [Error.prototype.toString], which both [error.toString()] and the
    template literal [`${error}`] call. *)
Definition toString (e : JsError) : string :=
  if String.eqb (errName e) "" then errMessage e
  else if String.eqb (errMessage e) "" then errName e
  else errName e ++ ": " ++ errMessage e.

(** [`${n}`] for a status code. *)
Definition showNat (n : nat) : string := NilEmpty.string_of_uint (Nat.to_uint n).

(** [`${token}`] for [string | null]. *)
Definition showNullable (t : option string) : string :=
  match t with Some s => s | None => "null" end.

(** The values passed to [JSON.stringify] for request bodies. *)
Inductive Json : Type :=
| JString (s : string)
| JBool (b : bool).

(* ===================================================================== *)
(** ** The backend as seen through [fetch] *)
(* ===================================================================== *)

Definition API_URL : string := "http://localhost:8000".

(** The eight calls of [fetch] in the three services. *)
Inductive Endpoint : Type :=
| LoginUser | LogoutUser | RefreshUser
| GameVersionInfo | GameDownload | GameLaunch
| SettingsLoad | SettingsSave.

Definition url (e : Endpoint) : string :=
  match e with
  | LoginUser => API_URL ++ "/api/loginUser"
  | LogoutUser => API_URL ++ "/api/logoutUser"
  | RefreshUser => API_URL ++ "/api/refreshUser"
  | GameVersionInfo => API_URL ++ "/api/game/version"
  | GameDownload => API_URL ++ "/api/game/download"
  | GameLaunch => API_URL ++ "/api/game/launch"
  | SettingsLoad | SettingsSave => API_URL ++ "/settings"
  end.

Definition method (e : Endpoint) : string :=
  match e with
  | GameVersionInfo | SettingsLoad => "GET"
  | _ => "POST"
  end.

Record RequestInit : Type := {
  headers : list (string * string);
  body : option (list (string * Json))
}.

(** What [response.json()] is typed to for each call.  The TypeScript
    signatures are the only check there is; the download answer is parsed and
    thrown away, so its payload is kept as the delivered text. *)
Definition payload (e : Endpoint) : Type :=
  match e with
  | LoginUser | RefreshUser => AuthResponse.t
  | GameVersionInfo => GameVersion.t
  | SettingsLoad => LauncherSettings.t
  | GameDownload => string
  | LogoutUser | GameLaunch | SettingsSave => unit
  end.

Record Response (e : Endpoint) : Type := {
  status : nat;
  (** [inl err]: [response.json()] rejects with [err]. *)
  parsed : JsError + payload e
}.
Arguments status {e} _.
Arguments parsed {e} _.

(** [response.ok]: the status is in the range 200-299. *)
Definition ok {e} (r : Response e) : bool :=
  Nat.leb 200 (status r) && Nat.leb (status r) 299.

Inductive FetchOutcome (e : Endpoint) : Type :=
| NetworkFailure (err : JsError)      (* the promise of [fetch] rejects *)
| Responded (r : Response e).
Arguments NetworkFailure {e} _.
Arguments Responded {e} _.

Inductive Event : Type :=
| EvFetch (e : Endpoint) (init : RequestInit)
| EvConsoleError (label : string) (err : JsError).

(** The backend answers a request knowing everything that happened before. *)
Definition Backend : Type := list Event -> forall e : Endpoint, RequestInit -> FetchOutcome e.

(* ===================================================================== *)
(** ** Actions: finite effect trees *)
(* ===================================================================== *)

Inductive Action (A : Type) : Type :=
| Return (a : A)
| Throw (err : JsError)
| GetState (k : State.t -> Action A)
| SetState (ps : list Patch.t) (k : Action A)
| Fetch (e : Endpoint) (init : RequestInit) (k : FetchOutcome e -> Action A)
| GetItem (key : string) (k : option string -> Action A)
| ConsoleError (label : string) (err : JsError) (k : Action A).
Arguments Return {A} _.
Arguments Throw {A} _.
Arguments GetState {A} _.
Arguments SetState {A} _ _.
Arguments Fetch {A} _ _ _.
Arguments GetItem {A} _ _.
Arguments ConsoleError {A} _ _ _.

Fixpoint bind {A B} (m : Action A) (f : A -> Action B) : Action B :=
  match m with
  | Return a => f a
  | Throw err => Throw err
  | GetState k => GetState (fun s => bind (k s) f)
  | SetState ps k => SetState ps (bind k f)
  | Fetch e init k => Fetch e init (fun o => bind (k o) f)
  | GetItem key k => GetItem key (fun v => bind (k v) f)
  | ConsoleError l err k => ConsoleError l err (bind k f)
  end.

(** [try { m } catch (error) { h error }] *)
Fixpoint tryCatch {A} (m : Action A) (h : JsError -> Action A) : Action A :=
  match m with
  | Return a => Return a
  | Throw err => h err
  | GetState k => GetState (fun s => tryCatch (k s) h)
  | SetState ps k => SetState ps (tryCatch k h)
  | Fetch e init k => Fetch e init (fun o => tryCatch (k o) h)
  | GetItem key k => GetItem key (fun v => tryCatch (k v) h)
  | ConsoleError l err k => ConsoleError l err (tryCatch k h)
  end.

Declare Scope action_scope.
Delimit Scope action_scope with action.
Bind Scope action_scope with Action.
Notation "x <- m ;; k" := (bind m (fun x => k))
  (at level 61, m at next level, right associativity) : action_scope.
Notation "m ;; k" := (bind m (fun _ => k))
  (at level 61, right associativity) : action_scope.
Local Open Scope action_scope.

Definition get : Action State.t := GetState (fun s => Return s).
Definition set (ps : list Patch.t) : Action unit := SetState ps (Return tt).
Definition consoleError (label : string) (err : JsError) : Action unit :=
  ConsoleError label err (Return tt).
Definition localStorage_getItem (key : string) : Action (option string) :=
  GetItem key (fun v => Return v).

(** [await fetch(url e, { method: method e, headers, body })]: resolves with
    the response, or throws when the request itself fails. *)
Definition fetch (e : Endpoint) (init : RequestInit) : Action (Response e) :=
  Fetch e init (fun o =>
    match o with
    | NetworkFailure err => Throw err
    | Responded r => Return r
    end).

(** [await response.json()] *)
Definition json {e} (r : Response e) : Action (payload e) :=
  match parsed r with
  | inl err => Throw err
  | inr v => Return v
  end.

(* ===================================================================== *)
(** ** Running an action *)
(* ===================================================================== *)

Record World : Type := {
  store : State.t;
  localStorage : string -> option string;
  trace : list Event
}.

Definition withStore (s : State.t) (w : World) : World :=
  {| store := s; localStorage := localStorage w; trace := trace w |}.

Definition logged (ev : Event) (w : World) : World :=
  {| store := store w; localStorage := localStorage w; trace := trace w ++ [ev] |}.

Inductive Completion (A : Type) : Type :=
| Resolved (a : A)
| Rejected (err : JsError).
Arguments Resolved {A} _.
Arguments Rejected {A} _.

Fixpoint run {A} (net : Backend) (m : Action A) (w : World) : Completion A * World :=
  match m with
  | Return a => (Resolved a, w)
  | Throw err => (Rejected err, w)
  | GetState k => run net (k (store w)) w
  | SetState ps k => run net k (withStore (Patch.merge (store w) ps) w)
  | Fetch e init k => run net (k (net (trace w) e init)) (logged (EvFetch e init) w)
  | GetItem key k => run net (k (localStorage w key)) w
  | ConsoleError l err k => run net k (logged (EvConsoleError l err) w)
  end.

(** The first suspension of an action: either it settles without touching
    the network, or it is waiting for the answer to a request. *)
Inductive Pending (A : Type) : Type :=
| Settled (c : Completion A)
| Awaiting (e : Endpoint) (init : RequestInit) (k : FetchOutcome e -> Action A).
Arguments Settled {A} _.
Arguments Awaiting {A} _ _ _.

Fixpoint toAwait {A} (m : Action A) (w : World) : Pending A * World :=
  match m with
  | Return a => (Settled (Resolved a), w)
  | Throw err => (Settled (Rejected err), w)
  | GetState k => toAwait (k (store w)) w
  | SetState ps k => toAwait k (withStore (Patch.merge (store w) ps) w)
  | Fetch e init k => (Awaiting e init k, logged (EvFetch e init) w)
  | GetItem key k => toAwait (k (localStorage w key)) w
  | ConsoleError l err k => toAwait k (logged (EvConsoleError l err) w)
  end.

(* ===================================================================== *)
(** ** src/services/authService.ts *)
(* ===================================================================== *)

Definition jsonHeaders : list (string * string) :=
  [("Content-Type", "application/json")].

Definition bearerHeaders (token : option string) : list (string * string) :=
  [("Authorization", "Bearer " ++ showNullable token);
   ("Content-Type", "application/json")].

Module AuthService.

Definition loginRequest (username password : string) : RequestInit :=
  {| headers := jsonHeaders;
     body := Some [("username", JString username);
                   ("email", JString username);
                   ("password", JString password)] |}.

Definition login (username password : string) : Action AuthResponse.t :=
  tryCatch
    (response <- fetch LoginUser (loginRequest username password) ;;
     if negb (ok response)
     then Throw (newError ("HTTP error! status: " ++ showNat (status response)))
     else json response)
    (fun error => Throw (newError ("Login failed: " ++ toString error))).

Definition logoutRequest (token : option string) : RequestInit :=
  {| headers := bearerHeaders token; body := None |}.

(** The answer of the server is awaited but not looked at. *)
Definition logout : Action unit :=
  tryCatch
    (token <- localStorage_getItem "token" ;;
     _ <- fetch LogoutUser (logoutRequest token) ;;
     Return tt)
    (fun error => Throw (newError ("Logout failed: " ++ toString error))).

Definition refreshToken (token : string) : Action AuthResponse.t :=
  tryCatch
    (response <- fetch RefreshUser {| headers := bearerHeaders (Some token); body := None |} ;;
     if negb (ok response)
     then Throw (newError ("HTTP error! status: " ++ showNat (status response)))
     else json response)
    (fun error => Throw (newError ("Token refresh failed: " ++ toString error))).

End AuthService.

(* ===================================================================== *)
(** ** src/services/gameService.ts *)
(* ===================================================================== *)

Module GameService.

Definition versionRequest : RequestInit :=
  {| headers := jsonHeaders; body := None |}.

Definition checkVersion : Action GameVersion.t :=
  tryCatch
    (response <- fetch GameVersionInfo versionRequest ;;
     if negb (ok response)
     then Throw (newError ("HTTP error! status: " ++ showNat (status response)))
     else json response)
    (fun error => Throw (newError ("Failed to check version: " ++ toString error))).

Definition downloadRequest (token : option string) (version installPath : string)
  : RequestInit :=
  {| headers := bearerHeaders token;
     body := Some [("version", JString version);
                   ("installPath", JString installPath)] |}.

(** [onProgress] is accepted and never called: the body waits for the
    answer, parses it and drops the parsed value. *)
Definition downloadGame (version installPath : string)
    (onProgress : DownloadProgress.t -> Action unit) : Action unit :=
  tryCatch
    (token <- localStorage_getItem "token" ;;
     response <- fetch GameDownload (downloadRequest token version installPath) ;;
     if negb (ok response)
     then Throw (newError ("HTTP error! status: " ++ showNat (status response)))
     else (_ <- json response ;; Return tt))
    (fun error => Throw (newError ("Failed to download game: " ++ toString error))).

Definition launchRequest (token installPath : string) : RequestInit :=
  {| headers := bearerHeaders (Some token);
     body := Some [("installPath", JString installPath)] |}.

Definition launchGame (token installPath : string) : Action unit :=
  tryCatch
    (response <- fetch GameLaunch (launchRequest token installPath) ;;
     if negb (ok response)
     then Throw (newError ("HTTP error! status: " ++ showNat (status response)))
     else Return tt)
    (fun error => Throw (newError ("Failed to launch game: " ++ toString error))).

Definition defaultPath : string := "C:\RemakeSoF\Game".

Definition getInstallPath : Action string := Return defaultPath.

End GameService.

(* ===================================================================== *)
(** ** src/services/settingsService.ts *)
(* ===================================================================== *)

Module SettingsService.

Definition defaults : LauncherSettings.t :=
  {| LauncherSettings.serverUrl := "http://localhost:8000";
     LauncherSettings.installPath := "";
     LauncherSettings.autoUpdate := true;
     LauncherSettings.rememberMe := false;
     LauncherSettings.language := "en" |}.

(** Loading never fails: the handler returns the defaults. *)
Definition getSettings : Action LauncherSettings.t :=
  tryCatch
    (token <- localStorage_getItem "token" ;;
     response <- fetch SettingsLoad {| headers := bearerHeaders token; body := None |} ;;
     if negb (ok response)
     then Throw (newError ("HTTP error! status: " ++ showNat (status response)))
     else json response)
    (fun error => Return defaults).

Definition stringify (settings : LauncherSettings.t) : list (string * Json) :=
  [("serverUrl", JString (LauncherSettings.serverUrl settings));
   ("installPath", JString (LauncherSettings.installPath settings));
   ("autoUpdate", JBool (LauncherSettings.autoUpdate settings));
   ("rememberMe", JBool (LauncherSettings.rememberMe settings));
   ("language", JString (LauncherSettings.language settings))].

Definition saveRequest (token : option string) (settings : LauncherSettings.t)
  : RequestInit :=
  {| headers := bearerHeaders token; body := Some (stringify settings) |}.

Definition saveSettings (settings : LauncherSettings.t) : Action unit :=
  tryCatch
    (token <- localStorage_getItem "token" ;;
     response <- fetch SettingsSave (saveRequest token settings) ;;
     if negb (ok response)
     then Throw (newError ("HTTP error! status: " ++ showNat (status response)))
     else Return tt)
    (fun error => Throw (newError ("Failed to save settings: " ++ toString error))).

End SettingsService.

(* ===================================================================== *)
(** ** src/services/store.ts: the actions of [useLauncherStore] *)
(* ===================================================================== *)

Module Store.

Definition initialize : Action unit :=
  tryCatch
    (settings <- SettingsService.getSettings ;;
     set [Patch.settings (Some settings)])
    (fun error => consoleError "Failed to initialize launcher:" error).

Section CheckGameVersion.
(** [GameService.getInstallPath], kept abstract to compare runs that
    differ only in what it returns. *)
Variable getInstallPath : Action string.

Definition checkGameVersionWith : Action unit :=
  tryCatch
    (set [Patch.launcherStatus CHECKING_VERSION] ;;
     version <- GameService.checkVersion ;;
     installPath <- getInstallPath ;;
     set [Patch.gameVersion (Some version);
          Patch.launcherStatus READY])
    (fun error =>
       set [Patch.errorMessage (Some "Failed to check game version");
            Patch.launcherStatus ERROR]).
End CheckGameVersion.

Definition checkGameVersion : Action unit :=
  checkGameVersionWith GameService.getInstallPath.

Definition login (username password : string) : Action unit :=
  tryCatch
    (set [Patch.launcherStatus IDLE; Patch.errorMessage None] ;;
     response <- AuthService.login username password ;;
     set [Patch.isAuthenticated true;
          Patch.user (Some response);
          Patch.token (Some (AuthResponse.token response))] ;;
     (* After login, check game version *)
     checkGameVersion)
    (fun error =>
       set [Patch.errorMessage (Some (toString error));
            Patch.launcherStatus ERROR] ;;
       Throw error).

Definition logout : Action unit :=
  tryCatch
    (AuthService.logout ;;
     set [Patch.isAuthenticated false;
          Patch.user None;
          Patch.token None;
          Patch.launcherStatus IDLE])
    (fun error => consoleError "Logout failed:" error).

Definition startProgress (gameVersion : GameVersion.t) : DownloadProgress.t :=
  {| DownloadProgress.downloadedBytes := 0%Z;
     DownloadProgress.totalBytes := GameVersion.fileSize gameVersion;
     DownloadProgress.progressPercent := 0%Z;
     DownloadProgress.speedMbps := 0%Z |}.

Definition downloadGame : Action unit :=
  s <- get ;;
  match State.gameVersion s, State.settings s with
  | Some gameVersion, Some settings =>
      tryCatch
        (set [Patch.launcherStatus DOWNLOADING;
              Patch.downloadProgress (Some (startProgress gameVersion))] ;;
         GameService.downloadGame
           (GameVersion.version gameVersion)
           (LauncherSettings.installPath settings)
           (fun progress => set [Patch.downloadProgress (Some progress)]) ;;
         set [Patch.launcherStatus READY;
              Patch.installedVersion (Some (GameVersion.version gameVersion))])
        (fun error =>
           set [Patch.errorMessage (Some ("Download failed: " ++ toString error));
                Patch.launcherStatus ERROR])
  | _, _ =>
      set [Patch.errorMessage (Some "Version or settings not available")]
  end.

(** [!token] holds for [null] and for the empty string; [!settings] for
    [null] only, [settings] being an object. *)
Definition launchGame : Action unit :=
  s <- get ;;
  match State.token s, State.settings s with
  | Some token, Some settings =>
      if String.eqb token "" then
        set [Patch.errorMessage (Some "Not authenticated or settings missing")]
      else
        tryCatch
          (set [Patch.launcherStatus PLAYING] ;;
           GameService.launchGame token (LauncherSettings.installPath settings) ;;
           (* Game launched successfully *)
           set [Patch.launcherStatus READY])
          (fun error =>
             set [Patch.errorMessage (Some ("Failed to launch game: " ++ toString error));
                  Patch.launcherStatus ERROR])
  | _, _ =>
      set [Patch.errorMessage (Some "Not authenticated or settings missing")]
  end.

Definition updateSettings (settings : LauncherSettings.t) : Action unit :=
  tryCatch
    (SettingsService.saveSettings settings ;;
     set [Patch.settings (Some settings)])
    (fun error => consoleError "Failed to save settings:" error).

End Store.

(* ===================================================================== *)
(** ** src/components/LauncherScreen.tsx: the play button *)
(* ===================================================================== *)

Module LauncherScreen.

(** The component renders from the current store, so the status the
    handlers test is the one of the store.  The handler starts the store
    action and does not catch anything: a rejection of the action would be
    an unhandled one. *)
Definition handlePlayClick : Action unit :=
  s <- get ;;
  if LauncherStatus_eqb (State.launcherStatus s) READY then Store.launchGame
  else if LauncherStatus_eqb (State.launcherStatus s) IDLE then Store.downloadGame
  else Return tt.

Definition isButtonDisabled (launcherStatus : LauncherStatus) : bool :=
  LauncherStatus_eqb launcherStatus DOWNLOADING ||
  LauncherStatus_eqb launcherStatus INSTALLING ||
  LauncherStatus_eqb launcherStatus CHECKING_VERSION ||
  LauncherStatus_eqb launcherStatus PLAYING.

(** [<button onClick={handlePlayClick} disabled={isButtonDisabled}>]: a
    disabled button fires no click handler. *)
Definition playButton_onClick : Action unit :=
  s <- get ;;
  if isButtonDisabled (State.launcherStatus s) then Return tt
  else handlePlayClick.


(** Lines 32-51. *)
Definition getStatusText (launcherStatus : LauncherStatus) : string :=
  match launcherStatus with
  | CHECKING_VERSION => "Checking version..."
  | DOWNLOADING => "Downloading..."
  | INSTALLING => "Installing..."
  | READY => "Ready to play"
  | UPDATING => "Updating..."
  | PLAYING => "Game is running"
  | ERROR => "Error"
  | IDLE => "Initializing..."
  end.

(** Lines 53-68. *)
Definition getButtonText (launcherStatus : LauncherStatus) : string :=
  match launcherStatus with
  | READY => "PLAY"
  | DOWNLOADING | INSTALLING | UPDATING => "DOWNLOADING..."
  | PLAYING => "PLAYING"
  | ERROR => "RETRY"
  | IDLE | CHECKING_VERSION => "DOWNLOAD"
  end.

End LauncherScreen.

(* ===================================================================== *)
(** ** src/components/LoginScreen.tsx and src/App.tsx *)
(* ===================================================================== *)

Module LoginScreen.

(** The [useState] cells of the component. *)
Record t : Type := mk {
  username : string;
  password : string;
  rememberMe : bool;
  isLoading : bool;
  error : option string
}.

Definition initial : t :=
  {| username := ""; password := ""; rememberMe := false;
     isLoading := false; error := None |}.





End LoginScreen.

Module App.



End App.

(* ===================================================================== *)
(** ** The actions of the store, one after another *)
(* ===================================================================== *)

(** The seven actions of the [LauncherState] interface (store.ts, lines
    24-30), as what the presentation layer can ask for. *)
Inductive StoreAction : Type :=
| DoLogin (username password : string)
| DoLogout
| DoCheckGameVersion
| DoDownloadGame
| DoLaunchGame
| DoUpdateSettings (settings : LauncherSettings.t)
| DoInitialize.

Definition perform (a : StoreAction) : Action unit :=
  match a with
  | DoLogin username password => Store.login username password
  | DoLogout => Store.logout
  | DoCheckGameVersion => Store.checkGameVersion
  | DoDownloadGame => Store.downloadGame
  | DoLaunchGame => Store.launchGame
  | DoUpdateSettings settings => Store.updateSettings settings
  | DoInitialize => Store.initialize
  end.

(** Actions run to completion one after another; what one throws is dropped
    by the caller. *)
Definition performAll (net : Backend) (acts : list StoreAction) (w : World) : World :=
  fold_left (fun w a => snd (run net (perform a) w)) acts w.

(** The patches a completed action has merged into the store [s] it
    started from: one constructor per path through the action. *)
Inductive Effect (s : State.t) : StoreAction -> list Patch.t -> Prop :=
| E_login_rejected u p err :
    Effect s (DoLogin u p)
      [Patch.launcherStatus IDLE; Patch.errorMessage None;
       Patch.errorMessage (Some (toString err)); Patch.launcherStatus ERROR]
| E_login_ready u p response version :
    Effect s (DoLogin u p)
      [Patch.launcherStatus IDLE; Patch.errorMessage None;
       Patch.isAuthenticated true; Patch.user (Some response);
       Patch.token (Some (AuthResponse.token response));
       Patch.launcherStatus CHECKING_VERSION;
       Patch.gameVersion (Some version); Patch.launcherStatus READY]
| E_login_unchecked u p response :
    Effect s (DoLogin u p)
      [Patch.launcherStatus IDLE; Patch.errorMessage None;
       Patch.isAuthenticated true; Patch.user (Some response);
       Patch.token (Some (AuthResponse.token response));
       Patch.launcherStatus CHECKING_VERSION;
       Patch.errorMessage (Some "Failed to check game version");
       Patch.launcherStatus ERROR]
| E_logout_done :
    Effect s DoLogout
      [Patch.isAuthenticated false; Patch.user None; Patch.token None;
       Patch.launcherStatus IDLE]
| E_logout_failed : Effect s DoLogout []
| E_check_ready version :
    Effect s DoCheckGameVersion
      [Patch.launcherStatus CHECKING_VERSION;
       Patch.gameVersion (Some version); Patch.launcherStatus READY]
| E_check_failed :
    Effect s DoCheckGameVersion
      [Patch.launcherStatus CHECKING_VERSION;
       Patch.errorMessage (Some "Failed to check game version");
       Patch.launcherStatus ERROR]
| E_download_refused :
    State.gameVersion s = None \/ State.settings s = None ->
    Effect s DoDownloadGame
      [Patch.errorMessage (Some "Version or settings not available")]
| E_download_done gv st :
    State.gameVersion s = Some gv -> State.settings s = Some st ->
    Effect s DoDownloadGame
      [Patch.launcherStatus DOWNLOADING;
       Patch.downloadProgress (Some (Store.startProgress gv));
       Patch.launcherStatus READY;
       Patch.installedVersion (Some (GameVersion.version gv))]
| E_download_failed gv st err :
    State.gameVersion s = Some gv -> State.settings s = Some st ->
    Effect s DoDownloadGame
      [Patch.launcherStatus DOWNLOADING;
       Patch.downloadProgress (Some (Store.startProgress gv));
       Patch.errorMessage (Some ("Download failed: " ++ toString err));
       Patch.launcherStatus ERROR]
| E_launch_refused :
    State.token s = None \/ State.token s = Some "" \/ State.settings s = None ->
    Effect s DoLaunchGame
      [Patch.errorMessage (Some "Not authenticated or settings missing")]
| E_launch_done tk st :
    State.token s = Some tk -> tk <> "" -> State.settings s = Some st ->
    Effect s DoLaunchGame
      [Patch.launcherStatus PLAYING; Patch.launcherStatus READY]
| E_launch_failed tk st err :
    State.token s = Some tk -> tk <> "" -> State.settings s = Some st ->
    Effect s DoLaunchGame
      [Patch.launcherStatus PLAYING;
       Patch.errorMessage (Some ("Failed to launch game: " ++ toString err));
       Patch.launcherStatus ERROR]
| E_update_done settings :
    Effect s (DoUpdateSettings settings) [Patch.settings (Some settings)]
| E_update_failed settings : Effect s (DoUpdateSettings settings) []
| E_initialize settings :
    Effect s DoInitialize [Patch.settings (Some settings)].


(** The session fields agree: logged out with no user and no token, or
    logged in with the token of the user. *)
Definition sessionConsistent (s : State.t) : Prop :=
  match State.user s, State.token s with
  | None, None => State.isAuthenticated s = false
  | Some response, Some tk =>
      State.isAuthenticated s = true /\ tk = AuthResponse.token response
  | _, _ => False
  end.

(** [str] begins with [pre]. *)
Definition startsWith (pre str : string) : Prop := exists rest, str = pre ++ rest.

(* ===================================================================== *)
(** ** Scenarios: concrete backends and worlds *)
(* ===================================================================== *)

Module Scenario.

Definition admin : AuthResponse.t :=
  {| AuthResponse.message := "Login successful";
     AuthResponse.playerId := "player-1";
     AuthResponse.username := "admin";
     AuthResponse.token := "jwt-admin";
     AuthResponse.selectedSkinName := None |}.

Definition release (sum : string) : GameVersion.t :=
  {| GameVersion.version := "1.2.3";
     GameVersion.releaseDate := "2026-02-01";
     GameVersion.downloadUrl := "http://localhost:8000/files/1.2.3";
     GameVersion.fileSize := 1000%Z;
     GameVersion.checksum := sum |}.

Definition RESPONSE {e} (code : nat) (v : payload e) : FetchOutcome e :=
  Responded {| status := code; parsed := inr v |}.

Definition unauthorized (e : Endpoint) : FetchOutcome e :=
  Responded {| status := 401;
               parsed := inl {| errName := "SyntaxError";
                                errMessage := "Unexpected end of JSON input" |} |}.

Definition failedToFetch : JsError :=
  {| errName := "TypeError"; errMessage := "Failed to fetch" |}.

Definition isAdmin (init : RequestInit) : bool :=
  match body init with
  | Some [(_, JString u); _; (_, JString p)] =>
      String.eqb u "admin" && String.eqb p "admin123"
  | _ => false
  end.

(** A backend that is up: it knows the account admin/admin123, advertises
    release 1.2.3 with the given checksum and delivers [content] whatever
    that checksum is. *)
Definition online (sum content : string) : Backend :=
  fun _ e =>
    match e return RequestInit -> FetchOutcome e with
    | LoginUser => fun init =>
        if isAdmin init then RESPONSE (e := LoginUser) 200 admin
        else unauthorized LoginUser
    | RefreshUser => fun _ => RESPONSE (e := RefreshUser) 200 admin
    | GameVersionInfo => fun _ => RESPONSE (e := GameVersionInfo) 200 (release sum)
    | SettingsLoad => fun _ => RESPONSE (e := SettingsLoad) 200 SettingsService.defaults
    | GameDownload => fun _ => RESPONSE (e := GameDownload) 200 content
    | LogoutUser => fun _ => RESPONSE (e := LogoutUser) 200 tt
    | GameLaunch => fun _ => RESPONSE (e := GameLaunch) 200 tt
    | SettingsSave => fun _ => RESPONSE (e := SettingsSave) 200 tt
    end.

(** No route to the backend: every [fetch] rejects. *)
Definition offline : Backend := fun _ _ _ => NetworkFailure failedToFetch.

(** The server is reachable and answers every request with status 500. *)
Definition broken : Backend :=
  fun _ e _ =>
    Responded {| status := 500;
                 parsed := inl {| errName := "SyntaxError";
                                  errMessage := "Unexpected token" |} |}.

Definition fresh : World :=
  {| store := State.initial; localStorage := fun _ => None; trace := [] |}.

Definition settings : LauncherSettings.t :=
  {| LauncherSettings.serverUrl := "http://localhost:8000";
     LauncherSettings.installPath := "C:\Games\RemakeSoF";
     LauncherSettings.autoUpdate := true;
     LauncherSettings.rememberMe := false;
     LauncherSettings.language := "en" |}.

(** Logged in as admin, release 1.2.3 known, nothing installed, idle. *)
Definition loggedIn (sum : string) : World :=
  {| store :=
       {| State.isAuthenticated := true;
          State.user := Some admin;
          State.token := Some "jwt-admin";
          State.gameVersion := Some (release sum);
          State.installedVersion := None;
          State.launcherStatus := IDLE;
          State.downloadProgress := None;
          State.errorMessage := None;
          State.settings := Some settings |};
     localStorage := fun _ => None;
     trace := [] |}.

(** The world while the first download of [loggedIn] waits for its answer. *)
Definition downloading (sum : string) : World :=
  snd (toAwait Store.downloadGame (loggedIn sum)).

End Scenario.

(* ===================================================================== *)
(** ** Notions used to state the results *)
(* ===================================================================== *)

(** Actions that neither read nor patch the store: the three services. *)
Inductive StoreFree {A} : Action A -> Prop :=
| SF_Return a : StoreFree (Return a)
| SF_Throw err : StoreFree (Throw err)
| SF_Fetch e init k : (forall o, StoreFree (k o)) -> StoreFree (Fetch e init k)
| SF_GetItem key k : (forall v, StoreFree (k v)) -> StoreFree (GetItem key k)
| SF_ConsoleError l err k : StoreFree k -> StoreFree (ConsoleError l err k).

(** The outcome of a call that throws on a status outside 200-299 and
    otherwise hands the response to [k]. *)
Definition settle {e A} (wrap : string) (k : Response e -> Completion A)
    (o : FetchOutcome e) : Completion A :=
  match o with
  | NetworkFailure err => Rejected (newError (wrap ++ toString err))
  | Responded r =>
      if ok r then k r
      else Rejected (newError (wrap ++
             toString (newError ("HTTP error! status: " ++ showNat (status r)))))
  end.

Definition parsedOr {e} (wrap : string) (r : Response e) : Completion (payload e) :=
  match parsed r with
  | inl err => Rejected (newError (wrap ++ toString err))
  | inr v => Resolved v
  end.

(** The answer of the backend to the download request that [downloadGame]
    sends from world [w] for descriptor [gv] and settings [st]. *)
Definition downloadAnswer (net : Backend) (w : World)
    (gv : GameVersion.t) (st : LauncherSettings.t) : FetchOutcome GameDownload :=
  net (trace w) GameDownload
    (GameService.downloadRequest (localStorage w "token")
       (GameVersion.version gv) (LauncherSettings.installPath st)).

(** The payload an answer delivers: its status is 200-299 and its body
    parses. *)
Definition delivered (o : FetchOutcome GameDownload) : option string :=
  match o with
  | NetworkFailure _ => None
  | Responded r =>
      if ok r then match parsed r with inr P => Some P | inl _ => None end
      else None
  end.

(* ===================================================================== *)
(** ** Laws of the interpreters *)
(* ===================================================================== *)

Lemma run_bind {A B} (net : Backend) (m : Action A) (f : A -> Action B) (w : World) :
  run net (bind m f) w =
  match run net m w with
  | (Resolved a, w') => run net (f a) w'
  | (Rejected err, w') => (Rejected err, w')
  end.
Proof.
  revert w. induction m as [a|err|k IH|ps k IH|e init k IH|key k IH|l err k IH];
    intros w; simpl; auto.
Qed.

Lemma run_tryCatch {A} (net : Backend) (m : Action A) (h : JsError -> Action A) (w : World) :
  run net (tryCatch m h) w =
  match run net m w with
  | (Resolved a, w') => (Resolved a, w')
  | (Rejected err, w') => run net (h err) w'
  end.
Proof.
  revert w. induction m as [a|err|k IH|ps k IH|e init k IH|key k IH|l err k IH];
    intros w; simpl; auto.
Qed.

Lemma run_set (net : Backend) (ps : list Patch.t) (w : World) :
  run net (set ps) w = (Resolved tt, withStore (Patch.merge (store w) ps) w).
Proof. reflexivity. Qed.

(** Running to completion is running to the first request, then resuming
    with the answer of the backend to that request (the last event of the
    suspended world; the backend sees the history before it). *)
Lemma run_toAwait {A} (net : Backend) (m : Action A) (w : World) :
  run net m w =
  match toAwait m w with
  | (Settled c, w') => (c, w')
  | (Awaiting e init k, w') => run net (k (net (removelast (trace w')) e init)) w'
  end.
Proof.
  revert w. induction m as [a|err|k IH|ps k IH|e init k IH|key k IH|l err k IH];
    intros w; simpl; auto.
  rewrite removelast_last. reflexivity.
Qed.

Lemma StoreFree_bind {A B} (m : Action A) (f : A -> Action B) :
  StoreFree m -> (forall a, StoreFree (f a)) -> StoreFree (bind m f).
Proof. intros Hm Hf. induction Hm; simpl; auto using @StoreFree. Qed.

Lemma StoreFree_tryCatch {A} (m : Action A) (h : JsError -> Action A) :
  StoreFree m -> (forall err, StoreFree (h err)) -> StoreFree (tryCatch m h).
Proof. intros Hm Hh. induction Hm; simpl; auto using @StoreFree. Qed.

Lemma StoreFree_fetch e init : StoreFree (fetch e init).
Proof. apply SF_Fetch. intros [err|r]; constructor. Qed.

Lemma StoreFree_json e (r : Response e) : StoreFree (json r).
Proof. unfold json. destruct (parsed r); constructor. Qed.

Lemma StoreFree_getItem key : StoreFree (localStorage_getItem key).
Proof. apply SF_GetItem. intros v. constructor. Qed.

Ltac storefree :=
  repeat (first
    [ apply StoreFree_tryCatch | apply StoreFree_bind | apply StoreFree_fetch
    | match goal with |- StoreFree (json ?r) => exact (StoreFree_json _ r) end
    | apply StoreFree_getItem | constructor
    | intro
    | match goal with
      | |- StoreFree (if ?b then _ else _) => destruct b
      | |- StoreFree (match ?o with NetworkFailure _ => _ | Responded _ => _ end) =>
          destruct o
      end ]).

Lemma StoreFree_login u p : StoreFree (AuthService.login u p).
Proof. unfold AuthService.login. storefree. Qed.

Lemma StoreFree_logout : StoreFree AuthService.logout.
Proof. unfold AuthService.logout. storefree. Qed.

Lemma StoreFree_checkVersion : StoreFree GameService.checkVersion.
Proof. unfold GameService.checkVersion. storefree. Qed.

Lemma StoreFree_downloadGame v path cb : StoreFree (GameService.downloadGame v path cb).
Proof. unfold GameService.downloadGame. storefree. Qed.

Lemma StoreFree_launchGame tk path : StoreFree (GameService.launchGame tk path).
Proof. unfold GameService.launchGame. storefree. Qed.

Lemma StoreFree_saveSettings s : StoreFree (SettingsService.saveSettings s).
Proof. unfold SettingsService.saveSettings. storefree. Qed.

Lemma StoreFree_getSettings : StoreFree SettingsService.getSettings.
Proof. unfold SettingsService.getSettings. storefree. Qed.

(** A store-free action behaves the same whatever the store holds, and
    hands the store back as it found it. *)
Lemma run_StoreFree {A} (net : Backend) (m : Action A) :
  StoreFree m ->
  forall (s : State.t) (w : World),
    run net m (withStore s w) =
    (fst (run net m w), withStore s (snd (run net m w))).
Proof.
  induction 1 as [a|err|e init k _ IH|key k _ IH|l err k _ IH]; intros s w; simpl;
    try reflexivity.
  - apply (IH _ s (logged (EvFetch e init) w)).
  - apply (IH _ s w).
  - apply (IH s (logged (EvConsoleError l err) w)).
Qed.

Lemma store_StoreFree {A} (net : Backend) (m : Action A) :
  StoreFree m -> forall w, store (snd (run net m w)) = store w.
Proof.
  induction 1 as [a|err|e init k _ IH|key k _ IH|l err k _ IH]; intros w; simpl;
    try reflexivity.
  - apply (IH _ (logged (EvFetch e init) w)).
  - apply (IH _ w).
  - apply (IH (logged (EvConsoleError l err) w)).
Qed.

(* ===================================================================== *)
(** ** What each service call does *)
(* ===================================================================== *)

Ltac exec :=
  cbn [run bind tryCatch fetch json get set consoleError localStorage_getItem
       negb fst snd].

Ltac service :=
  intros; exec;
  match goal with
  | |- context [?net (trace ?w) ?e ?init] =>
      destruct (net (trace w) e init) as [err|r]; exec;
      [ reflexivity
      | destruct (ok r); exec; unfold json;
        [ try (destruct (parsed r); exec) | ]; reflexivity ]
  end.

Lemma run_checkVersion net w :
  run net GameService.checkVersion w =
  (settle "Failed to check version: " (parsedOr "Failed to check version: ")
     (net (trace w) GameVersionInfo GameService.versionRequest),
   logged (EvFetch GameVersionInfo GameService.versionRequest) w).
Proof. unfold GameService.checkVersion, settle, parsedOr. service. Qed.

Lemma run_login net u p w :
  run net (AuthService.login u p) w =
  (settle "Login failed: " (parsedOr "Login failed: ")
     (net (trace w) LoginUser (AuthService.loginRequest u p)),
   logged (EvFetch LoginUser (AuthService.loginRequest u p)) w).
Proof. unfold AuthService.login, settle, parsedOr. service. Qed.

Lemma run_authLogout net w :
  run net AuthService.logout w =
  (match net (trace w) LogoutUser (AuthService.logoutRequest (localStorage w "token")) with
   | NetworkFailure err => Rejected (newError ("Logout failed: " ++ toString err))
   | Responded _ => Resolved tt
   end,
   logged (EvFetch LogoutUser (AuthService.logoutRequest (localStorage w "token"))) w).
Proof.
  unfold AuthService.logout. exec.
  destruct (net (trace w) LogoutUser _); reflexivity.
Qed.

Lemma run_serviceDownload net v path cb w :
  run net (GameService.downloadGame v path cb) w =
  (settle "Failed to download game: "
     (fun r => match parsedOr "Failed to download game: " r with
               | Resolved _ => Resolved tt
               | Rejected err => Rejected err
               end)
     (net (trace w) GameDownload (GameService.downloadRequest (localStorage w "token") v path)),
   logged (EvFetch GameDownload
             (GameService.downloadRequest (localStorage w "token") v path)) w).
Proof. unfold GameService.downloadGame, settle, parsedOr. service. Qed.

Lemma run_serviceLaunch net tk path w :
  run net (GameService.launchGame tk path) w =
  (settle "Failed to launch game: " (fun _ => Resolved tt)
     (net (trace w) GameLaunch (GameService.launchRequest tk path)),
   logged (EvFetch GameLaunch (GameService.launchRequest tk path)) w).
Proof. unfold GameService.launchGame, settle. service. Qed.

Lemma run_saveSettings net s w :
  run net (SettingsService.saveSettings s) w =
  (settle "Failed to save settings: " (fun _ => Resolved tt)
     (net (trace w) SettingsSave (SettingsService.saveRequest (localStorage w "token") s)),
   logged (EvFetch SettingsSave
             (SettingsService.saveRequest (localStorage w "token") s)) w).
Proof. unfold SettingsService.saveSettings, settle. service. Qed.

Lemma run_getSettings net w :
  exists s,
    run net SettingsService.getSettings w =
    (Resolved s,
     logged (EvFetch SettingsLoad
               {| headers := bearerHeaders (localStorage w "token"); body := None |}) w).
Proof.
  unfold SettingsService.getSettings. exec.
  destruct (net (trace w) SettingsLoad _) as [err|r]; exec.
  - eexists; reflexivity.
  - destruct (ok r); exec; unfold json; [destruct (parsed r)|]; exec; eexists; reflexivity.
Qed.

(** Two runs on the scenarios: a wrong password is answered with 401, and
    the message the store shows wraps it twice; the settings come back as the
    defaults when the backend cannot be reached. *)
Example login_wrong_password :
  fst (run (Scenario.online "abc" "x") (AuthService.login "admin" "wrongpass")
         Scenario.fresh)
  = Rejected (newError "Login failed: Error: HTTP error! status: 401").
Proof. reflexivity. Qed.

Example getSettings_offline :
  fst (run Scenario.offline SettingsService.getSettings Scenario.fresh)
  = Resolved SettingsService.defaults.
Proof. reflexivity. Qed.

(* ===================================================================== *)
(** ** The version check *)
(* ===================================================================== *)

Lemma run_checkGameVersionWith net (getInstallPath : Action string) p w :
  getInstallPath = Return p ->
  run net (Store.checkGameVersionWith getInstallPath) w =
  let w1 := logged (EvFetch GameVersionInfo GameService.versionRequest) w in
  match fst (run net GameService.checkVersion w) with
  | Resolved v =>
      (Resolved tt,
       withStore (Patch.merge (store w)
                    [Patch.launcherStatus CHECKING_VERSION;
                     Patch.gameVersion (Some v);
                     Patch.launcherStatus READY]) w1)
  | Rejected _ =>
      (Resolved tt,
       withStore (Patch.merge (store w)
                    [Patch.launcherStatus CHECKING_VERSION;
                     Patch.errorMessage (Some "Failed to check game version");
                     Patch.launcherStatus ERROR]) w1)
  end.
Proof.
  intros ->. unfold Store.checkGameVersionWith.
  rewrite run_tryCatch, run_bind, run_set, run_bind.
  rewrite (run_StoreFree net _ StoreFree_checkVersion), run_checkVersion.
  cbn [fst snd].
  destruct (settle _ _ _) as [v|err]; reflexivity.
Qed.

(** C10.  The state produced by [checkGameVersion] does not depend on what
    [GameService.getInstallPath] returns: for any two returned paths the run
    ends with the same completion, the same store (hence the same
    [gameVersion], [launcherStatus] and [errorMessage]) and the same
    requests, and it is the run of the action as the store defines it. *)
Theorem checkGameVersion_ignores_installPath (net : Backend) (w : World) (p1 p2 : string) :
  run net (Store.checkGameVersionWith (Return p1)) w =
  run net (Store.checkGameVersionWith (Return p2)) w /\
  run net (Store.checkGameVersionWith (Return p1)) w =
  run net Store.checkGameVersion w.
Proof.
  unfold Store.checkGameVersion.
  rewrite (run_checkGameVersionWith net _ p1 w eq_refl).
  rewrite (run_checkGameVersionWith net _ p2 w eq_refl).
  rewrite (run_checkGameVersionWith net GameService.getInstallPath
             GameService.defaultPath w eq_refl).
  split; reflexivity.
Qed.

(** C2, as stated, fails: with nothing installed and release 1.2.3 fetched,
    the status after the check is [READY], not [IDLE]. *)
Lemma checkGameVersion_ready_with_nothing_installed :
  ~ (forall v : GameVersion.t,
       fst (run (Scenario.online "abc" "x") GameService.checkVersion Scenario.fresh)
         = Resolved v ->
       let s' := store (snd (run (Scenario.online "abc" "x")
                               Store.checkGameVersion Scenario.fresh)) in
       (State.launcherStatus s' = READY <->
        State.installedVersion (store Scenario.fresh) = Some (GameVersion.version v)) /\
       (State.installedVersion (store Scenario.fresh) <> Some (GameVersion.version v) ->
        State.launcherStatus s' = IDLE)).
Proof.
  intros H.
  destruct (H (Scenario.release "abc") eq_refl) as [[H1 _] _].
  specialize (H1 eq_refl). discriminate H1.
Qed.

(** C2, amended.  After a version check whose request succeeded, the status
    is [READY] whatever is installed: [installedVersion] is neither read nor
    written, the fetched descriptor becomes [gameVersion], and the only
    request made is the one for the version, so no download is started. *)
Theorem checkGameVersion_resolved (net : Backend) (w : World) (v : GameVersion.t) :
  fst (run net GameService.checkVersion w) = Resolved v ->
  let w' := snd (run net Store.checkGameVersion w) in
  fst (run net Store.checkGameVersion w) = Resolved tt /\
  State.launcherStatus (store w') = READY /\
  State.gameVersion (store w') = Some v /\
  State.installedVersion (store w') = State.installedVersion (store w) /\
  State.errorMessage (store w') = State.errorMessage (store w) /\
  trace w' = (trace w ++ [EvFetch GameVersionInfo GameService.versionRequest])%list.
Proof.
  intros Hv. unfold Store.checkGameVersion.
  cbv zeta.
  rewrite (run_checkGameVersionWith net GameService.getInstallPath
             GameService.defaultPath w eq_refl), Hv.
  destruct w as [[a u tk gv iv ls dp em st] lsto tr].
  cbn. repeat split; reflexivity.
Qed.

Lemma checkGameVersion_resolved_witness :
  let net := Scenario.online "abc" "x" in
  let w' := snd (run net Store.checkGameVersion Scenario.fresh) in
  fst (run net GameService.checkVersion Scenario.fresh) = Resolved (Scenario.release "abc") /\
  State.installedVersion (store Scenario.fresh) = None /\
  State.launcherStatus (store w') = READY /\
  State.gameVersion (store w') = Some (Scenario.release "abc").
Proof.
  pose proof (checkGameVersion_resolved (Scenario.online "abc" "x") Scenario.fresh
                (Scenario.release "abc") eq_refl) as H.
  cbv zeta in H. destruct H as (_ & Hs & Hg & _).
  repeat split; assumption.
Defined.

(* ===================================================================== *)
(** ** Downloading *)
(* ===================================================================== *)

Lemma run_downloadGame net w gv st cb :
  State.gameVersion (store w) = Some gv ->
  State.settings (store w) = Some st ->
  run net Store.downloadGame w =
  let w1 := logged (EvFetch GameDownload
                      (GameService.downloadRequest (localStorage w "token")
                         (GameVersion.version gv) (LauncherSettings.installPath st))) w in
  match fst (run net (GameService.downloadGame (GameVersion.version gv)
                        (LauncherSettings.installPath st) cb) w) with
  | Resolved _ =>
      (Resolved tt,
       withStore (Patch.merge (store w)
                    [Patch.launcherStatus DOWNLOADING;
                     Patch.downloadProgress (Some (Store.startProgress gv));
                     Patch.launcherStatus READY;
                     Patch.installedVersion (Some (GameVersion.version gv))]) w1)
  | Rejected err =>
      (Resolved tt,
       withStore (Patch.merge (store w)
                    [Patch.launcherStatus DOWNLOADING;
                     Patch.downloadProgress (Some (Store.startProgress gv));
                     Patch.errorMessage (Some ("Download failed: " ++ toString err));
                     Patch.launcherStatus ERROR]) w1)
  end.
Proof.
  intros Hgv Hst. unfold Store.downloadGame.
  rewrite run_bind. cbn [run get]. rewrite Hgv, Hst.
  rewrite run_tryCatch, run_bind, run_set, run_bind.
  rewrite !run_serviceDownload. cbn [fst snd trace localStorage withStore].
  destruct (settle _ _ _); reflexivity.
Qed.

(** The download service resolves exactly when the answer delivers a
    payload, whatever that payload is. *)
Lemma serviceDownload_delivered net w gv st cb :
  match delivered (downloadAnswer net w gv st) with
  | Some _ =>
      fst (run net (GameService.downloadGame (GameVersion.version gv)
                      (LauncherSettings.installPath st) cb) w) = Resolved tt
  | None =>
      exists err,
      fst (run net (GameService.downloadGame (GameVersion.version gv)
                      (LauncherSettings.installPath st) cb) w) = Rejected err
  end.
Proof.
  rewrite run_serviceDownload. cbn [fst].
  unfold downloadAnswer, delivered, settle, parsedOr.
  destruct (net (trace w) GameDownload _) as [err|r]; [eexists; reflexivity|].
  destruct (ok r); [|eexists; reflexivity].
  destruct (parsed r); [eexists|]; reflexivity.
Qed.

Lemma append_differs (s : string) : s <> s ++ "!".
Proof.
  induction s as [|c s IH]; cbn; [discriminate|].
  intros H. injection H as H. exact (IH H).
Qed.

(** C1, as stated, fails for every digest function: take the payload "x"
    and a descriptor whose checksum is anything but the digest of "x"; the
    backend delivers "x" and the version is recorded as installed. *)
Lemma downloadGame_installs_without_digest :
  ~ (exists digest : string -> string,
       forall (net : Backend) (w : World) (gv : GameVersion.t)
              (st : LauncherSettings.t) (P : string),
         State.gameVersion (store w) = Some gv ->
         State.settings (store w) = Some st ->
         State.installedVersion (store w) = None ->
         delivered (downloadAnswer net w gv st) = Some P ->
         let w' := snd (run net Store.downloadGame w) in
         (State.installedVersion (store w') = Some (GameVersion.version gv) <->
          digest P = GameVersion.checksum gv) /\
         (digest P <> GameVersion.checksum gv ->
          State.launcherStatus (store w') = ERROR /\
          State.installedVersion (store w') = None)).
Proof.
  intros [digest H].
  destruct (H (Scenario.online (digest "x" ++ "!") "x")
              (Scenario.loggedIn (digest "x" ++ "!"))
              (Scenario.release (digest "x" ++ "!"))
              Scenario.settings "x" eq_refl eq_refl eq_refl eq_refl) as [[Hinst _] _].
  apply (append_differs (digest "x")). apply Hinst. reflexivity.
Qed.

(** C1, amended.  With a descriptor and settings in the store,
    [downloadGame] records the descriptor's version as installed and becomes
    [READY] when the answer to the download request delivers a payload,
    whatever the payload is: nothing is digested and the descriptor's
    checksum is not looked at.  When no payload is delivered (request failed,
    status outside 200-299, body not parsable) it ends in [ERROR] with a
    message that starts with "Download failed: " and leaves
    [installedVersion] as it was.  One download request is sent in both
    cases. *)
Theorem downloadGame_installs_what_is_delivered
    (net : Backend) (w : World) (gv : GameVersion.t) (st : LauncherSettings.t) :
  State.gameVersion (store w) = Some gv ->
  State.settings (store w) = Some st ->
  let w' := snd (run net Store.downloadGame w) in
  (forall P : string,
     delivered (downloadAnswer net w gv st) = Some P ->
     State.installedVersion (store w') = Some (GameVersion.version gv) /\
     State.launcherStatus (store w') = READY /\
     State.errorMessage (store w') = State.errorMessage (store w)) /\
  (delivered (downloadAnswer net w gv st) = None ->
     State.installedVersion (store w') = State.installedVersion (store w) /\
     State.launcherStatus (store w') = ERROR /\
     exists err, State.errorMessage (store w') = Some ("Download failed: " ++ toString err)) /\
  trace w' =
    (trace w ++ [EvFetch GameDownload
                   (GameService.downloadRequest (localStorage w "token")
                      (GameVersion.version gv) (LauncherSettings.installPath st))])%list.
Proof.
  intros Hgv Hst. cbv zeta.
  rewrite (run_downloadGame net w gv st (fun _ => Return tt) Hgv Hst).
  pose proof (serviceDownload_delivered net w gv st (fun _ => Return tt)) as Hd.
  destruct w as [[a u tk gv0 iv ls dp em st0] lsto tr].
  destruct (delivered _) as [P0|].
  - rewrite Hd. cbn.
    split; [intros P _; repeat split | split; [discriminate | reflexivity]].
  - destruct Hd as [err ->]. cbn.
    split; [discriminate | split; [intros _ | reflexivity]].
    repeat split. exists err. reflexivity.
Qed.

Lemma downloadGame_installs_what_is_delivered_witness :
  let net := Scenario.online "abc" "tampered" in
  let w := Scenario.loggedIn "abc" in
  let w' := snd (run net Store.downloadGame w) in
  delivered (downloadAnswer net w (Scenario.release "abc") Scenario.settings)
    = Some "tampered" /\
  State.installedVersion (store w') = Some "1.2.3" /\
  State.launcherStatus (store w') = READY.
Proof.
  cbv zeta. split; [reflexivity|].
  destruct (downloadGame_installs_what_is_delivered
              (Scenario.online "abc" "tampered") (Scenario.loggedIn "abc")
              (Scenario.release "abc") Scenario.settings eq_refl eq_refl)
    as (Hok & _ & _).
  destruct (Hok "tampered" eq_refl) as (Hi & Hs & _).
  split; assumption.
Defined.

(** C9.  When [gameVersion] or [settings] is null, [downloadGame] only sets
    [errorMessage] to 'Version or settings not available' and returns
    without awaiting anything: the status, the installed version and the
    download progress are unchanged and no request is sent. *)
Theorem downloadGame_without_version_or_settings (net : Backend) (w : World) :
  State.gameVersion (store w) = None \/ State.settings (store w) = None ->
  let w' := snd (run net Store.downloadGame w) in
  fst (run net Store.downloadGame w) = Resolved tt /\
  fst (toAwait Store.downloadGame w) = Settled (Resolved tt) /\
  State.errorMessage (store w') = Some "Version or settings not available" /\
  State.launcherStatus (store w') = State.launcherStatus (store w) /\
  State.installedVersion (store w') = State.installedVersion (store w) /\
  State.downloadProgress (store w') = State.downloadProgress (store w) /\
  trace w' = trace w.
Proof.
  intros H. destruct w as [[a u tk gv iv ls dp em st] lsto tr].
  unfold Store.downloadGame. cbn [store State.gameVersion State.settings] in H.
  destruct gv as [gv|]; destruct st as [st|];
    try (destruct H as [H|H]; discriminate H);
    cbn; repeat split; reflexivity.
Qed.

Lemma downloadGame_without_version_or_settings_witness :
  let w' := snd (run Scenario.offline Store.downloadGame Scenario.fresh) in
  (State.gameVersion (store Scenario.fresh) = None \/
   State.settings (store Scenario.fresh) = None) /\
  State.errorMessage (store w') = Some "Version or settings not available" /\
  State.launcherStatus (store w') = IDLE /\
  trace w' = [].
Proof.
  cbv zeta. split; [left; reflexivity|].
  destruct (downloadGame_without_version_or_settings Scenario.offline Scenario.fresh
              (or_introl eq_refl)) as (_ & _ & He & Hs & _ & _ & Ht).
  repeat split; assumption.
Defined.

(* ===================================================================== *)
(** ** The play button while a download is in flight *)
(* ===================================================================== *)

Lemma handlePlayClick_downloading net w :
  State.launcherStatus (store w) = DOWNLOADING ->
  LauncherScreen.isButtonDisabled (State.launcherStatus (store w)) = true /\
  run net LauncherScreen.handlePlayClick w = (Resolved tt, w) /\
  run net LauncherScreen.playButton_onClick w = (Resolved tt, w).
Proof.
  intros H. unfold LauncherScreen.handlePlayClick, LauncherScreen.playButton_onClick.
  cbn [run bind get]. rewrite H. repeat split; reflexivity.
Qed.

Lemma toAwait_downloadGame w gv st :
  State.gameVersion (store w) = Some gv ->
  State.settings (store w) = Some st ->
  snd (toAwait Store.downloadGame w) =
  logged (EvFetch GameDownload
            (GameService.downloadRequest (localStorage w "token")
               (GameVersion.version gv) (LauncherSettings.installPath st)))
    (withStore (Patch.merge (store w)
                  [Patch.launcherStatus DOWNLOADING;
                   Patch.downloadProgress (Some (Store.startProgress gv))]) w).
Proof.
  intros Hgv Hst. unfold Store.downloadGame. cbn [toAwait bind get].
  rewrite Hgv, Hst. reflexivity.
Qed.

(** C3, as stated, fails: while the first download of the logged-in
    scenario waits for its answer (status [DOWNLOADING]), a second
    [downloadGame] sends a second download request. *)
Lemma second_downloadGame_starts_transfer :
  ~ (State.launcherStatus (store (Scenario.downloading "abc")) = DOWNLOADING ->
     let w' := snd (run (Scenario.online "abc" "x") Store.downloadGame
                      (Scenario.downloading "abc")) in
     trace w' = trace (Scenario.downloading "abc") /\
     State.downloadProgress (store w') =
       State.downloadProgress (store (Scenario.downloading "abc"))).
Proof.
  intros H. destruct (H eq_refl) as [Ht _].
  vm_compute in Ht. discriminate Ht.
Qed.

(** C3, amended.  While the status is [DOWNLOADING] the play button is
    disabled and its click handler starts nothing, so the screen cannot ask
    for a second download.  The store action has no such guard: called in
    that state with a descriptor and settings present, it sends a new
    download request and sets the progress back to zero bytes of
    [fileSize]. *)
Theorem downloadGame_while_downloading
    (net : Backend) (w : World) (gv : GameVersion.t) (st : LauncherSettings.t) :
  State.launcherStatus (store w) = DOWNLOADING ->
  State.gameVersion (store w) = Some gv ->
  State.settings (store w) = Some st ->
  (LauncherScreen.isButtonDisabled (State.launcherStatus (store w)) = true /\
   run net LauncherScreen.handlePlayClick w = (Resolved tt, w) /\
   run net LauncherScreen.playButton_onClick w = (Resolved tt, w)) /\
  let w1 := snd (toAwait Store.downloadGame w) in
  trace w1 =
    (trace w ++ [EvFetch GameDownload
                   (GameService.downloadRequest (localStorage w "token")
                      (GameVersion.version gv) (LauncherSettings.installPath st))])%list /\
  State.launcherStatus (store w1) = DOWNLOADING /\
  State.downloadProgress (store w1) = Some (Store.startProgress gv) /\
  trace (snd (run net Store.downloadGame w)) = trace w1.
Proof.
  intros Hs Hgv Hst. split; [exact (handlePlayClick_downloading net w Hs)|].
  cbv zeta. rewrite (toAwait_downloadGame w gv st Hgv Hst).
  rewrite (run_downloadGame net w gv st (fun _ => Return tt) Hgv Hst).
  destruct w as [[a u tk gv0 iv ls dp em st0] lsto tr].
  destruct (fst (run net _ _)); cbn; repeat split; reflexivity.
Qed.

Lemma downloadGame_while_downloading_witness :
  let net := Scenario.online "abc" "x" in
  let w := Scenario.downloading "abc" in
  State.launcherStatus (store w) = DOWNLOADING /\
  run net LauncherScreen.handlePlayClick w = (Resolved tt, w) /\
  List.length (trace (snd (toAwait Store.downloadGame w))) = 2.
Proof.
  cbv zeta.
  destruct (downloadGame_while_downloading (Scenario.online "abc" "x")
              (Scenario.downloading "abc") (Scenario.release "abc") Scenario.settings
              eq_refl eq_refl eq_refl) as ((_ & Hc & _) & Ht & _).
  split; [reflexivity|]. split; [exact Hc|].
  rewrite Ht. reflexivity.
Defined.

(* ===================================================================== *)
(** ** Logging in *)
(* ===================================================================== *)

Lemma run_localStorage {A} (net : Backend) (m : Action A) (w : World) :
  localStorage (snd (run net m w)) = localStorage w.
Proof.
  revert w. induction m as [a|err|k IH|ps k IH|e init k IH|key k IH|l err k IH];
    intros w; cbn [run snd]; auto.
  - rewrite IH. reflexivity.
  - rewrite IH. reflexivity.
  - rewrite IH. reflexivity.
Qed.

(** The version check catches everything: it always resolves. *)
Lemma checkGameVersion_never_rejects net w :
  fst (run net Store.checkGameVersion w) = Resolved tt.
Proof.
  unfold Store.checkGameVersion.
  rewrite (run_checkGameVersionWith net GameService.getInstallPath
             GameService.defaultPath w eq_refl).
  cbv zeta. destruct (fst (run net GameService.checkVersion w)); reflexivity.
Qed.

Lemma checkGameVersion_session net w :
  let s' := store (snd (run net Store.checkGameVersion w)) in
  State.isAuthenticated s' = State.isAuthenticated (store w) /\
  State.user s' = State.user (store w) /\
  State.token s' = State.token (store w) /\
  trace (snd (run net Store.checkGameVersion w)) =
    (trace w ++ [EvFetch GameVersionInfo GameService.versionRequest])%list.
Proof.
  unfold Store.checkGameVersion.
  rewrite (run_checkGameVersionWith net GameService.getInstallPath
             GameService.defaultPath w eq_refl).
  destruct w as [[a u tk gv iv ls dp em st] lsto tr].
  cbv zeta. destruct (fst (run net GameService.checkVersion _)); cbn;
    repeat split; reflexivity.
Qed.

Lemma run_storeLogin net u p w :
  run net (Store.login u p) w =
  let w1 := logged (EvFetch LoginUser (AuthService.loginRequest u p)) w in
  match fst (run net (AuthService.login u p) w) with
  | Resolved response =>
      run net Store.checkGameVersion
        (withStore (Patch.merge (store w)
                      [Patch.launcherStatus IDLE;
                       Patch.errorMessage None;
                       Patch.isAuthenticated true;
                       Patch.user (Some response);
                       Patch.token (Some (AuthResponse.token response))]) w1)
  | Rejected err =>
      (Rejected err,
       withStore (Patch.merge (store w)
                    [Patch.launcherStatus IDLE;
                     Patch.errorMessage None;
                     Patch.errorMessage (Some (toString err));
                     Patch.launcherStatus ERROR]) w1)
  end.
Proof.
  unfold Store.login.
  rewrite run_tryCatch, run_bind, run_set, run_bind.
  rewrite (run_StoreFree net _ (StoreFree_login u p)), run_login.
  cbn [fst snd]. destruct (settle _ _ _) as [response|err].
  - rewrite run_bind, run_set. cbv zeta.
    match goal with
    | |- ?lhs = ?rhs =>
        match lhs with
        | context [run net Store.checkGameVersion ?w2] =>
            change rhs with (run net Store.checkGameVersion w2);
            pose proof (checkGameVersion_never_rejects net w2) as Hr;
            destruct (run net Store.checkGameVersion w2) as [c w3]
        end
    end.
    cbn [fst] in Hr. subst c. reflexivity.
  - reflexivity.
Qed.

(** C4.  [login] composes authentication with the version check.  When
    [AuthService.login] resolves, the session ([isAuthenticated], [user],
    [token]) is set and the rest of the run is exactly the version check, whose
    request follows the login request.  When it rejects (for instance on a
    401), no version request is made, the status is [ERROR] with the error as
    message, the error is thrown again to the caller, and the session fields
    and [localStorage] are as before. *)
Theorem login_then_version_check (net : Backend) (w : World) (u p : string) :
  let w' := snd (run net (Store.login u p) w) in
  let w1 := logged (EvFetch LoginUser (AuthService.loginRequest u p)) w in
  (forall response : AuthResponse.t,
     fst (run net (AuthService.login u p) w) = Resolved response ->
     run net (Store.login u p) w =
       run net Store.checkGameVersion
         (withStore (Patch.merge (store w)
                       [Patch.launcherStatus IDLE;
                        Patch.errorMessage None;
                        Patch.isAuthenticated true;
                        Patch.user (Some response);
                        Patch.token (Some (AuthResponse.token response))]) w1) /\
     State.isAuthenticated (store w') = true /\
     State.user (store w') = Some response /\
     State.token (store w') = Some (AuthResponse.token response) /\
     trace w' =
       (trace w ++ [EvFetch LoginUser (AuthService.loginRequest u p);
                    EvFetch GameVersionInfo GameService.versionRequest])%list) /\
  (forall err : JsError,
     fst (run net (AuthService.login u p) w) = Rejected err ->
     fst (run net (Store.login u p) w) = Rejected err /\
     State.launcherStatus (store w') = ERROR /\
     State.errorMessage (store w') = Some (toString err) /\
     State.isAuthenticated (store w') = State.isAuthenticated (store w) /\
     State.user (store w') = State.user (store w) /\
     State.token (store w') = State.token (store w) /\
     localStorage w' = localStorage w /\
     trace w' = (trace w ++ [EvFetch LoginUser (AuthService.loginRequest u p)])%list).
Proof.
  cbv zeta. rewrite run_storeLogin. cbv zeta. split.
  - intros response ->. split; [reflexivity|].
    match goal with
    | |- context [run net Store.checkGameVersion ?w2] =>
        destruct (checkGameVersion_session net w2) as (Ha & Hu & Ht & Htr)
    end.
    rewrite Ha, Hu, Ht, Htr.
    destruct w as [[a u0 tk gv iv ls dp em st] lsto tr].
    cbn. rewrite <- List.app_assoc. repeat split; reflexivity.
  - intros err ->.
    destruct w as [[a u0 tk gv iv ls dp em st] lsto tr].
    cbn. repeat split; reflexivity.
Qed.

Lemma login_then_version_check_witness :
  (let w' := snd (run (Scenario.online "abc" "x")
                    (Store.login "admin" "admin123") Scenario.fresh) in
   State.isAuthenticated (store w') = true /\
   State.token (store w') = Some "jwt-admin" /\
   List.length (trace w') = 2) /\
  (let w' := snd (run (Scenario.online "abc" "x")
                    (Store.login "admin" "wrongpass") Scenario.fresh) in
   State.launcherStatus (store w') = ERROR /\
   State.isAuthenticated (store w') = false /\
   State.token (store w') = None /\
   List.length (trace w') = 1).
Proof.
  cbv zeta. split.
  - destruct (proj1 (login_then_version_check (Scenario.online "abc" "x") Scenario.fresh
                       "admin" "admin123") Scenario.admin eq_refl)
      as (_ & Ha & _ & Ht & Htr).
    rewrite Htr. repeat split; assumption.
  - destruct (proj2 (login_then_version_check (Scenario.online "abc" "x") Scenario.fresh
                       "admin" "wrongpass") _ eq_refl)
      as (_ & Hs & _ & Ha & _ & Ht & _ & Htr).
    rewrite Htr. repeat split; assumption.
Defined.

(* ===================================================================== *)
(** ** Logging out *)
(* ===================================================================== *)

Lemma run_storeLogout net w :
  run net Store.logout w =
  let w1 := logged (EvFetch LogoutUser
                      (AuthService.logoutRequest (localStorage w "token"))) w in
  match fst (run net AuthService.logout w) with
  | Resolved _ =>
      (Resolved tt,
       withStore (Patch.merge (store w)
                    [Patch.isAuthenticated false;
                     Patch.user None;
                     Patch.token None;
                     Patch.launcherStatus IDLE]) w1)
  | Rejected err => (Resolved tt, logged (EvConsoleError "Logout failed:" err) w1)
  end.
Proof.
  unfold Store.logout. rewrite run_tryCatch, run_bind, run_authLogout.
  cbn [fst]. destruct (net (trace w) LogoutUser _); reflexivity.
Qed.

(** C5, as stated, fails: with no route to the backend, [logout] leaves the
    logged-in scenario logged in. *)
Lemma logout_offline_keeps_session :
  ~ (let w' := snd (run Scenario.offline Store.logout (Scenario.loggedIn "abc")) in
     State.isAuthenticated (store w') = false /\
     State.user (store w') = None /\
     State.token (store w') = None /\
     State.launcherStatus (store w') = IDLE).
Proof. cbv zeta. intros [H _]. vm_compute in H. discriminate H. Qed.

(** C5, amended.  [logout] never throws and never sets an error message.
    From every state, once the logout request is answered, with whatever
    status code, the session is cleared ([isAuthenticated] false, [user] and
    [token] null) and the status is [IDLE].  When the request itself fails,
    the failure is logged with [console.error] and the store is left as it
    was, session included. *)
Theorem logout_outcomes (net : Backend) (w : World) :
  let w' := snd (run net Store.logout w) in
  let request := EvFetch LogoutUser (AuthService.logoutRequest (localStorage w "token")) in
  fst (run net Store.logout w) = Resolved tt /\
  State.errorMessage (store w') = State.errorMessage (store w) /\
  match net (trace w) LogoutUser (AuthService.logoutRequest (localStorage w "token")) with
  | Responded _ =>
      State.isAuthenticated (store w') = false /\
      State.user (store w') = None /\
      State.token (store w') = None /\
      State.launcherStatus (store w') = IDLE /\
      trace w' = (trace w ++ [request])%list
  | NetworkFailure err =>
      store w' = store w /\
      trace w' =
        (trace w ++ [request;
                     EvConsoleError "Logout failed:"
                       (newError ("Logout failed: " ++ toString err))])%list
  end.
Proof.
  cbv zeta. rewrite run_storeLogout, run_authLogout. cbv zeta. cbn [fst].
  destruct w as [[a u tk gv iv ls dp em st] lsto tr].
  destruct (net _ LogoutUser _) as [err|r]; cbn.
  - rewrite <- List.app_assoc. repeat split; reflexivity.
  - repeat split; reflexivity.
Qed.

(* ===================================================================== *)
(** ** Launching *)
(* ===================================================================== *)

Lemma run_storeLaunch net w tk st :
  State.token (store w) = Some tk -> tk <> "" ->
  State.settings (store w) = Some st ->
  run net Store.launchGame w =
  let w1 := logged (EvFetch GameLaunch
                      (GameService.launchRequest tk (LauncherSettings.installPath st))) w in
  match fst (run net (GameService.launchGame tk (LauncherSettings.installPath st)) w) with
  | Resolved _ =>
      (Resolved tt,
       withStore (Patch.merge (store w)
                    [Patch.launcherStatus PLAYING; Patch.launcherStatus READY]) w1)
  | Rejected err =>
      (Resolved tt,
       withStore (Patch.merge (store w)
                    [Patch.launcherStatus PLAYING;
                     Patch.errorMessage (Some ("Failed to launch game: " ++ toString err));
                     Patch.launcherStatus ERROR]) w1)
  end.
Proof.
  intros Htk Hne Hst. unfold Store.launchGame.
  rewrite run_bind. cbn [run get]. rewrite Htk, Hst.
  apply String.eqb_neq in Hne. rewrite Hne.
  rewrite run_tryCatch, run_bind, run_set, run_bind.
  rewrite !run_serviceLaunch. cbn [fst snd trace localStorage withStore].
  destruct (settle _ _ _); reflexivity.
Qed.

Lemma toAwait_storeLaunch w tk st :
  State.token (store w) = Some tk -> tk <> "" ->
  State.settings (store w) = Some st ->
  snd (toAwait Store.launchGame w) =
  logged (EvFetch GameLaunch
            (GameService.launchRequest tk (LauncherSettings.installPath st)))
    (withStore (Patch.merge (store w) [Patch.launcherStatus PLAYING]) w).
Proof.
  intros Htk Hne Hst. unfold Store.launchGame. cbn [toAwait bind get].
  rewrite Htk, Hst. apply String.eqb_neq in Hne. rewrite Hne. reflexivity.
Qed.

(** C7, as stated, fails: while the download of the logged-in scenario is in
    flight, [launchGame] is not a no-op; it sends the launch request and
    leaves the status [READY]. *)
Lemma launchGame_while_downloading_acts :
  ~ (State.launcherStatus (store (Scenario.downloading "abc")) = DOWNLOADING ->
     let w' := snd (run (Scenario.online "abc" "x") Store.launchGame
                      (Scenario.downloading "abc")) in
     State.launcherStatus (store w') = DOWNLOADING /\
     trace w' = trace (Scenario.downloading "abc") /\
     store w' = store (Scenario.downloading "abc")).
Proof.
  intros H. destruct (H eq_refl) as [Hs _].
  vm_compute in Hs. discriminate Hs.
Qed.

(** C7, amended.  While the status is [DOWNLOADING] the play button is
    disabled and its click handler starts nothing, so a launch requested
    through the screen is ignored.  The store action has no such guard:
    called in that state with a token and settings present, it sets the
    status to [PLAYING], sends the launch request and ends in [READY] or
    [ERROR]. *)
Theorem launchGame_while_downloading
    (net : Backend) (w : World) (tk : string) (st : LauncherSettings.t) :
  State.launcherStatus (store w) = DOWNLOADING ->
  State.token (store w) = Some tk -> tk <> "" ->
  State.settings (store w) = Some st ->
  (LauncherScreen.isButtonDisabled (State.launcherStatus (store w)) = true /\
   run net LauncherScreen.handlePlayClick w = (Resolved tt, w) /\
   run net LauncherScreen.playButton_onClick w = (Resolved tt, w)) /\
  let w1 := snd (toAwait Store.launchGame w) in
  let w' := snd (run net Store.launchGame w) in
  State.launcherStatus (store w1) = PLAYING /\
  trace w1 =
    (trace w ++ [EvFetch GameLaunch
                   (GameService.launchRequest tk (LauncherSettings.installPath st))])%list /\
  (State.launcherStatus (store w') = READY \/ State.launcherStatus (store w') = ERROR).
Proof.
  intros Hs Htk Hne Hst. split; [exact (handlePlayClick_downloading net w Hs)|].
  cbv zeta. rewrite (toAwait_storeLaunch w tk st Htk Hne Hst).
  rewrite (run_storeLaunch net w tk st Htk Hne Hst).
  destruct w as [[a u tk0 gv iv ls dp em st0] lsto tr].
  destruct (fst (run net _ _)); cbn; repeat split; auto.
Qed.

Lemma launchGame_while_downloading_witness :
  let net := Scenario.online "abc" "x" in
  let w := Scenario.downloading "abc" in
  State.launcherStatus (store w) = DOWNLOADING /\
  run net LauncherScreen.playButton_onClick w = (Resolved tt, w) /\
  State.launcherStatus (store (snd (toAwait Store.launchGame w))) = PLAYING.
Proof.
  cbv zeta.
  assert (Hne : "jwt-admin" <> "") by discriminate.
  destruct (launchGame_while_downloading (Scenario.online "abc" "x")
              (Scenario.downloading "abc") "jwt-admin" Scenario.settings
              eq_refl eq_refl Hne eq_refl) as ((_ & _ & Hc) & Hp & _).
  split; [reflexivity|]. split; [exact Hc|exact Hp].
Defined.

(** C8, as stated, fails: in the logged-in scenario [launchGame] does send a
    POST request to the launch route of the backend. *)
Lemma launchGame_posts_to_backend :
  ~ (let w' := snd (run (Scenario.online "abc" "x") Store.launchGame
                      (Scenario.loggedIn "abc")) in
     forall init : RequestInit, ~ In (EvFetch GameLaunch init) (trace w')).
Proof.
  cbv zeta. intros H.
  apply (H (GameService.launchRequest "jwt-admin" "C:\Games\RemakeSoF")).
  vm_compute. left. reflexivity.
Qed.

(** C8, amended.  With a token and settings present, launching is one POST
    request to [/api/game/launch] of the backend: the session token travels
    in the [Authorization] header as a bearer credential and the install path
    in the body.  It is the only thing [launchGame] does besides patching the
    status; no process is started by the launcher. *)
Theorem launchGame_is_a_backend_request
    (net : Backend) (w : World) (tk : string) (st : LauncherSettings.t) :
  State.token (store w) = Some tk -> tk <> "" ->
  State.settings (store w) = Some st ->
  let w' := snd (run net Store.launchGame w) in
  let init := GameService.launchRequest tk (LauncherSettings.installPath st) in
  trace w' = (trace w ++ [EvFetch GameLaunch init])%list /\
  url GameLaunch = "http://localhost:8000/api/game/launch" /\
  method GameLaunch = "POST" /\
  In ("Authorization", "Bearer " ++ tk) (headers init) /\
  body init = Some [("installPath", JString (LauncherSettings.installPath st))].
Proof.
  intros Htk Hne Hst. cbv zeta.
  rewrite (run_storeLaunch net w tk st Htk Hne Hst).
  destruct w as [[a u tk0 gv iv ls dp em st0] lsto tr].
  destruct (fst (run net _ _)); cbn; repeat split; auto.
Qed.

Lemma launchGame_is_a_backend_request_witness :
  let w' := snd (run (Scenario.online "abc" "x") Store.launchGame
                   (Scenario.loggedIn "abc")) in
  State.token (store (Scenario.loggedIn "abc")) = Some "jwt-admin" /\
  trace w' = [EvFetch GameLaunch
                (GameService.launchRequest "jwt-admin" "C:\Games\RemakeSoF")].
Proof.
  cbv zeta. split; [reflexivity|].
  assert (Hne : "jwt-admin" <> "") by discriminate.
  destruct (launchGame_is_a_backend_request (Scenario.online "abc" "x")
              (Scenario.loggedIn "abc") "jwt-admin" Scenario.settings
              eq_refl Hne eq_refl) as (Ht & _).
  exact Ht.
Defined.

(* ===================================================================== *)
(** ** Failures at the boundary of the store *)
(* ===================================================================== *)

Lemma run_updateSettings net s w :
  run net (Store.updateSettings s) w =
  let w1 := logged (EvFetch SettingsSave
                      (SettingsService.saveRequest (localStorage w "token") s)) w in
  match fst (run net (SettingsService.saveSettings s) w) with
  | Resolved _ => (Resolved tt, withStore (Patch.merge (store w) [Patch.settings (Some s)]) w1)
  | Rejected err => (Resolved tt, logged (EvConsoleError "Failed to save settings:" err) w1)
  end.
Proof.
  unfold Store.updateSettings. rewrite run_tryCatch, run_bind, run_saveSettings.
  cbn [fst]. destruct (settle _ _ _); reflexivity.
Qed.

Lemma run_initialize net w (s : LauncherSettings.t) :
  fst (run net SettingsService.getSettings w) = Resolved s ->
  run net Store.initialize w =
  (Resolved tt,
   withStore (Patch.merge (store w) [Patch.settings (Some s)])
     (logged (EvFetch SettingsLoad
                {| headers := bearerHeaders (localStorage w "token");
                   body := None |}) w)).
Proof.
  destruct (run_getSettings net w) as [s' Hs]. rewrite Hs. cbn [fst].
  intros [= ->]. unfold Store.initialize.
  rewrite run_tryCatch, run_bind, Hs. reflexivity.
Qed.

(** C6, as stated, fails: with no route to the backend, the failure of
    [SettingsService.saveSettings] inside [updateSettings] does not put the
    launcher in the [ERROR] state and sets no message. *)
Lemma updateSettings_failure_not_surfaced :
  ~ (forall err : JsError,
       fst (run Scenario.offline (SettingsService.saveSettings Scenario.settings)
              Scenario.fresh) = Rejected err ->
       let w' := snd (run Scenario.offline (Store.updateSettings Scenario.settings)
                        Scenario.fresh) in
       State.launcherStatus (store w') = ERROR /\
       State.errorMessage (store w') <> None).
Proof.
  intros H. destruct (H _ eq_refl) as [Hs _].
  vm_compute in Hs. discriminate Hs.
Qed.

(** C6, amended.  A failure of the service called by [login],
    [checkGameVersion], [downloadGame] or [launchGame] is caught in the store
    and becomes the [ERROR] status with a message for the user.  A failure of
    the service called by [logout] or [updateSettings] is caught and logged
    with [console.error] only: the action resolves and the store is left as
    it was.  [initialize] has the same handler, which never runs, because
    loading the settings falls back to the defaults. *)
Theorem failures_at_the_store_boundary (net : Backend) (w : World) :
  (forall (u p : string) (err : JsError),
     fst (run net (AuthService.login u p) w) = Rejected err ->
     let w' := snd (run net (Store.login u p) w) in
     State.launcherStatus (store w') = ERROR /\
     State.errorMessage (store w') = Some (toString err)) /\
  (forall err : JsError,
     fst (run net GameService.checkVersion w) = Rejected err ->
     let w' := snd (run net Store.checkGameVersion w) in
     State.launcherStatus (store w') = ERROR /\
     State.errorMessage (store w') = Some "Failed to check game version") /\
  (forall (gv : GameVersion.t) (st : LauncherSettings.t)
          (cb : DownloadProgress.t -> Action unit) (err : JsError),
     State.gameVersion (store w) = Some gv ->
     State.settings (store w) = Some st ->
     fst (run net (GameService.downloadGame (GameVersion.version gv)
                     (LauncherSettings.installPath st) cb) w) = Rejected err ->
     let w' := snd (run net Store.downloadGame w) in
     State.launcherStatus (store w') = ERROR /\
     State.errorMessage (store w') = Some ("Download failed: " ++ toString err)) /\
  (forall (tk : string) (st : LauncherSettings.t) (err : JsError),
     State.token (store w) = Some tk -> tk <> "" ->
     State.settings (store w) = Some st ->
     fst (run net (GameService.launchGame tk (LauncherSettings.installPath st)) w)
       = Rejected err ->
     let w' := snd (run net Store.launchGame w) in
     State.launcherStatus (store w') = ERROR /\
     State.errorMessage (store w') = Some ("Failed to launch game: " ++ toString err)) /\
  (forall err : JsError,
     fst (run net AuthService.logout w) = Rejected err ->
     run net Store.logout w =
       (Resolved tt,
        logged (EvConsoleError "Logout failed:" err) (snd (run net AuthService.logout w))) /\
     store (snd (run net Store.logout w)) = store w) /\
  (forall (s : LauncherSettings.t) (err : JsError),
     fst (run net (SettingsService.saveSettings s) w) = Rejected err ->
     run net (Store.updateSettings s) w =
       (Resolved tt,
        logged (EvConsoleError "Failed to save settings:" err)
          (snd (run net (SettingsService.saveSettings s) w))) /\
     store (snd (run net (Store.updateSettings s) w)) = store w) /\
  (exists s : LauncherSettings.t,
     fst (run net SettingsService.getSettings w) = Resolved s /\
     fst (run net Store.initialize w) = Resolved tt /\
     State.settings (store (snd (run net Store.initialize w))) = Some s /\
     State.launcherStatus (store (snd (run net Store.initialize w))) =
       State.launcherStatus (store w)).
Proof.
  repeat apply conj.
  - intros u p err Herr. cbv zeta. rewrite run_storeLogin, Herr.
    destruct w as [[a u0 tk gv iv ls dp em st] lsto tr]. split; reflexivity.
  - intros err Herr. cbv zeta. unfold Store.checkGameVersion.
    rewrite (run_checkGameVersionWith net GameService.getInstallPath
               GameService.defaultPath w eq_refl), Herr.
    destruct w as [[a u tk gv iv ls dp em st] lsto tr]. split; reflexivity.
  - intros gv st cb err Hgv Hst Herr. cbv zeta.
    rewrite (run_downloadGame net w gv st cb Hgv Hst), Herr.
    destruct w as [[a u tk gv0 iv ls dp em st0] lsto tr]. split; reflexivity.
  - intros tk st err Htk Hne Hst Herr. cbv zeta.
    rewrite (run_storeLaunch net w tk st Htk Hne Hst), Herr.
    destruct w as [[a u tk0 gv iv ls dp em st0] lsto tr]. split; reflexivity.
  - intros err Herr. rewrite run_storeLogout, Herr, run_authLogout.
    split; reflexivity.
  - intros s err Herr. rewrite run_updateSettings, Herr, run_saveSettings.
    split; reflexivity.
  - destruct (run_getSettings net w) as [s Hs]. exists s.
    rewrite (run_initialize net w s) by (rewrite Hs; reflexivity).
    rewrite Hs. destruct w as [[a u tk gv iv ls dp em st] lsto tr].
    repeat split; reflexivity.
Qed.

Lemma failures_at_the_store_boundary_witness :
  (let w' := snd (run Scenario.offline (Store.login "admin" "admin123")
                    Scenario.fresh) in
   State.launcherStatus (store w') = ERROR /\
   State.errorMessage (store w') =
     Some "Error: Login failed: TypeError: Failed to fetch") /\
  (let w' := snd (run Scenario.broken Store.launchGame (Scenario.loggedIn "abc")) in
   State.launcherStatus (store w') = ERROR /\
   State.errorMessage (store w') =
     Some "Failed to launch game: Error: Failed to launch game: Error: HTTP error! status: 500") /\
  store (snd (run Scenario.offline (Store.updateSettings Scenario.settings)
                Scenario.fresh)) = store Scenario.fresh.
Proof.
  cbv zeta.
  assert (Hne : "jwt-admin" <> "") by discriminate.
  pose proof (failures_at_the_store_boundary Scenario.offline Scenario.fresh)
    as (Hlogin & _ & _ & _ & _ & Hsave & _).
  pose proof (failures_at_the_store_boundary Scenario.broken (Scenario.loggedIn "abc"))
    as (_ & _ & _ & Hlaunch & _).
  split; [exact (Hlogin "admin" "admin123" _ eq_refl)|].
  split; [exact (Hlaunch "jwt-admin" Scenario.settings _ eq_refl Hne eq_refl eq_refl)|].
  exact (proj2 (Hsave Scenario.settings _ eq_refl)).
Defined.

(* ===================================================================== *)
(** ** Every path through every action *)
(* ===================================================================== *)

Lemma run_downloadGame_refused net w :
  State.gameVersion (store w) = None \/ State.settings (store w) = None ->
  run net Store.downloadGame w =
  (Resolved tt,
   withStore (Patch.merge (store w)
                [Patch.errorMessage (Some "Version or settings not available")]) w).
Proof.
  intros H. unfold Store.downloadGame. rewrite run_bind. cbn [run get].
  destruct (State.gameVersion (store w)) as [gv|];
    destruct (State.settings (store w)) as [st|];
    try reflexivity.
  destruct H as [H|H]; discriminate H.
Qed.

Lemma run_storeLaunch_refused net w :
  State.token (store w) = None \/ State.token (store w) = Some "" \/
  State.settings (store w) = None ->
  run net Store.launchGame w =
  (Resolved tt,
   withStore (Patch.merge (store w)
                [Patch.errorMessage (Some "Not authenticated or settings missing")]) w).
Proof.
  intros H. unfold Store.launchGame. rewrite run_bind. cbn [run get].
  destruct (State.token (store w)) as [tk|];
    destruct (State.settings (store w)) as [st|];
    try reflexivity.
  destruct (String.eqb_spec tk "") as [->|Hne]; [reflexivity|].
  destruct H as [H|[H|H]]; try discriminate H.
  injection H as H. contradiction.
Qed.

Lemma launch_guard (s : State.t) :
  (State.token s = None \/ State.token s = Some "" \/ State.settings s = None) \/
  (exists tk st, State.token s = Some tk /\ tk <> "" /\ State.settings s = Some st).
Proof.
  destruct (State.token s) as [tk|]; [|left; left; reflexivity].
  destruct (State.settings s) as [st|]; [|left; right; right; reflexivity].
  destruct (String.eqb_spec tk "") as [->|Hne].
  - left. right. left. reflexivity.
  - right. exists tk, st. repeat split; auto.
Qed.

Lemma download_guard (s : State.t) :
  (State.gameVersion s = None \/ State.settings s = None) \/
  (exists gv st, State.gameVersion s = Some gv /\ State.settings s = Some st).
Proof.
  destruct (State.gameVersion s) as [gv|]; [|left; left; reflexivity].
  destruct (State.settings s) as [st|]; [|left; right; reflexivity].
  right. exists gv, st. split; reflexivity.
Qed.

Lemma merge_app (s : State.t) (ps qs : list Patch.t) :
  Patch.merge (Patch.merge s ps) qs = Patch.merge s (ps ++ qs)%list.
Proof. unfold Patch.merge. rewrite fold_left_app. reflexivity. Qed.

(** What a completed action leaves in the store is the store it started
    from, patched along one of the paths of [Effect]. *)
Lemma perform_effect net (a : StoreAction) (w : World) :
  exists ps : list Patch.t,
    Effect (store w) a ps /\
    store (snd (run net (perform a) w)) = Patch.merge (store w) ps.
Proof.
  destruct a as [u p| | | | |s|]; cbn [perform].
  - rewrite run_storeLogin. cbv zeta.
    destruct (fst (run net (AuthService.login u p) w)) as [response|err].
    + unfold Store.checkGameVersion.
      rewrite (run_checkGameVersionWith net GameService.getInstallPath
                 GameService.defaultPath _ eq_refl). cbv zeta.
      destruct (fst (run net GameService.checkVersion _)) as [v|err];
        cbn [snd store withStore]; rewrite merge_app; cbn [app];
        eexists; (split; [|reflexivity]); constructor.
    + eexists. split; [|reflexivity]. constructor.
  - rewrite run_storeLogout. cbv zeta.
    destruct (fst (run net AuthService.logout w)).
    + eexists. split; [apply E_logout_done|reflexivity].
    + exists []. split; [apply E_logout_failed|reflexivity].
  - unfold Store.checkGameVersion.
    rewrite (run_checkGameVersionWith net GameService.getInstallPath
               GameService.defaultPath w eq_refl). cbv zeta.
    destruct (fst (run net GameService.checkVersion w));
      eexists; (split; [|reflexivity]); constructor.
  - destruct (download_guard (store w)) as [H|(gv & st & Hgv & Hst)].
    + rewrite (run_downloadGame_refused net w H).
      eexists. split; [|reflexivity]. constructor. exact H.
    + rewrite (run_downloadGame net w gv st (fun _ => Return tt) Hgv Hst). cbv zeta.
      destruct (fst (run net _ w));
        eexists; (split; [|reflexivity]); econstructor; eassumption.
  - destruct (launch_guard (store w)) as [H|(tk & st & Htk & Hne & Hst)].
    + rewrite (run_storeLaunch_refused net w H).
      eexists. split; [|reflexivity]. constructor. exact H.
    + rewrite (run_storeLaunch net w tk st Htk Hne Hst). cbv zeta.
      destruct (fst (run net _ w));
        eexists; (split; [|reflexivity]); econstructor; eassumption.
  - rewrite run_updateSettings. cbv zeta.
    destruct (fst (run net (SettingsService.saveSettings s) w)).
    + eexists. split; [apply E_update_done|reflexivity].
    + exists []. split; [apply E_update_failed|reflexivity].
  - destruct (run_getSettings net w) as [s Hs].
    rewrite (run_initialize net w s) by (rewrite Hs; reflexivity).
    eexists. split; [|reflexivity]. constructor.
Qed.

Lemma performAll_invariant (Inv : State.t -> Prop) :
  (forall s a ps, Effect s a ps -> Inv s -> Inv (Patch.merge s ps)) ->
  forall net acts w, Inv (store w) -> Inv (store (performAll net acts w)).
Proof.
  intros Hstep net acts. induction acts as [|a acts IH]; intros w Hw; cbn.
  - exact Hw.
  - apply IH. destruct (perform_effect net a w) as (ps & He & ->). eauto.
Qed.

(* ===================================================================== *)
(** ** What the store keeps true from one action to the next *)
(* ===================================================================== *)



(** X2.  The [ERROR] status never comes without a message: if it holds
    before a sequence of actions that status [ERROR] implies a non-null
    [errorMessage], it holds after it. *)
Theorem error_status_has_message (net : Backend) (acts : list StoreAction) (w : World) :
  (State.launcherStatus (store w) = ERROR -> State.errorMessage (store w) <> None) ->
  let s' := store (performAll net acts w) in
  State.launcherStatus s' = ERROR -> State.errorMessage s' <> None.
Proof.
  cbv zeta.
  apply (performAll_invariant
           (fun s => State.launcherStatus s = ERROR -> State.errorMessage s <> None)).
  intros s a ps He. destruct s. destruct He; cbn; intros Hi Hs;
    try discriminate; auto.
Qed.

Lemma error_status_has_message_witness :
  let s' := store (performAll Scenario.offline
                     [DoLogin "admin" "admin123"; DoLogout; DoUpdateSettings Scenario.settings]
                     Scenario.fresh) in
  State.launcherStatus s' = ERROR /\ State.errorMessage s' <> None.
Proof.
  cbv zeta. split; [reflexivity|].
  apply (error_status_has_message Scenario.offline
           [DoLogin "admin" "admin123"; DoLogout; DoUpdateSettings Scenario.settings]
           Scenario.fresh).
  - intros H. discriminate H.
  - reflexivity.
Defined.

(** X3.  The three session fields stay in step: after any sequence of
    actions the store is either logged out with [user] and [token] null, or
    logged in with [token] equal to the token of [user]. *)
Theorem session_stays_consistent (net : Backend) (acts : list StoreAction) (w : World) :
  sessionConsistent (store w) ->
  sessionConsistent (store (performAll net acts w)).
Proof.
  apply (performAll_invariant sessionConsistent).
  intros s a ps He. destruct s as [au us tk gv iv ls dp em st].
  unfold sessionConsistent.
  destruct He; cbn; auto.
Qed.

Lemma session_stays_consistent_witness :
  sessionConsistent (store Scenario.fresh) /\
  sessionConsistent
    (store (performAll (Scenario.online "abc" "x")
              [DoLogin "admin" "admin123"; DoDownloadGame; DoLogout;
               DoLogin "admin" "wrongpass"]
              Scenario.fresh)).
Proof.
  split; [reflexivity|].
  apply (session_stays_consistent (Scenario.online "abc" "x") _ Scenario.fresh).
  reflexivity.
Defined.





(** X6.  What each action leaves alone.  [login] does not touch the
    installed version, the progress or the settings; [logout] touches the
    session and the status only; the version check touches neither the
    session nor the installed version, the progress or the settings;
    [downloadGame] touches neither the session nor the known version or the
    settings; [launchGame] touches the status and the message only;
    [updateSettings] and [initialize] touch the settings only. *)
Theorem actions_frame (net : Backend) (a : StoreAction) (w : World) :
  let s := store w in
  let s' := store (snd (run net (perform a) w)) in
  match a with
  | DoLogin _ _ =>
      State.installedVersion s' = State.installedVersion s /\
      State.downloadProgress s' = State.downloadProgress s /\
      State.settings s' = State.settings s
  | DoLogout =>
      State.gameVersion s' = State.gameVersion s /\
      State.installedVersion s' = State.installedVersion s /\
      State.downloadProgress s' = State.downloadProgress s /\
      State.errorMessage s' = State.errorMessage s /\
      State.settings s' = State.settings s
  | DoCheckGameVersion =>
      State.isAuthenticated s' = State.isAuthenticated s /\
      State.user s' = State.user s /\
      State.token s' = State.token s /\
      State.installedVersion s' = State.installedVersion s /\
      State.downloadProgress s' = State.downloadProgress s /\
      State.settings s' = State.settings s
  | DoDownloadGame =>
      State.isAuthenticated s' = State.isAuthenticated s /\
      State.user s' = State.user s /\
      State.token s' = State.token s /\
      State.gameVersion s' = State.gameVersion s /\
      State.settings s' = State.settings s
  | DoLaunchGame =>
      State.isAuthenticated s' = State.isAuthenticated s /\
      State.user s' = State.user s /\
      State.token s' = State.token s /\
      State.gameVersion s' = State.gameVersion s /\
      State.installedVersion s' = State.installedVersion s /\
      State.downloadProgress s' = State.downloadProgress s /\
      State.settings s' = State.settings s
  | DoUpdateSettings _ | DoInitialize =>
      State.isAuthenticated s' = State.isAuthenticated s /\
      State.user s' = State.user s /\
      State.token s' = State.token s /\
      State.gameVersion s' = State.gameVersion s /\
      State.installedVersion s' = State.installedVersion s /\
      State.launcherStatus s' = State.launcherStatus s /\
      State.downloadProgress s' = State.downloadProgress s /\
      State.errorMessage s' = State.errorMessage s
  end.
Proof.
  cbv zeta. destruct (perform_effect net a w) as (ps & He & ->).
  destruct (store w). destruct He; cbn; repeat split; reflexivity.
Qed.




(* ===================================================================== *)
(** ** The services on their own *)
(* ===================================================================== *)

Lemma StoreFree_refreshToken tk : StoreFree (AuthService.refreshToken tk).
Proof. unfold AuthService.refreshToken. storefree. Qed.

(** X8.  No service reads or writes the store: run from two worlds that
    differ in the store only, a service call completes the same way, sends the
    same requests and hands each store back untouched. *)
Theorem services_leave_the_store_alone (net : Backend) (s : State.t) (w : World) :
  let same {A} (m : Action A) :=
    run net m (withStore s w) = (fst (run net m w), withStore s (snd (run net m w))) /\
    store (snd (run net m w)) = store w in
  (forall u p, same (AuthService.login u p)) /\
  same AuthService.logout /\
  (forall tk, same (AuthService.refreshToken tk)) /\
  same GameService.checkVersion /\
  (forall v path cb, same (GameService.downloadGame v path cb)) /\
  (forall tk path, same (GameService.launchGame tk path)) /\
  same GameService.getInstallPath /\
  same SettingsService.getSettings /\
  (forall st, same (SettingsService.saveSettings st)).
Proof.
  cbv zeta.
  assert (H : forall A (m : Action A), StoreFree m ->
            run net m (withStore s w) =
              (fst (run net m w), withStore s (snd (run net m w))) /\
            store (snd (run net m w)) = store w).
  { intros A m Hm. split; [apply run_StoreFree | apply store_StoreFree]; exact Hm. }
  split; [intros; apply H, StoreFree_login|].
  split; [apply H, StoreFree_logout|].
  split; [intros; apply H, StoreFree_refreshToken|].
  split; [apply H, StoreFree_checkVersion|].
  split; [intros; apply H, StoreFree_downloadGame|].
  split; [intros; apply H, StoreFree_launchGame|].
  split; [apply H; constructor|].
  split; [apply H, StoreFree_getSettings|].
  intros; apply H, StoreFree_saveSettings.
Qed.

Lemma run_refreshToken net tk w :
  run net (AuthService.refreshToken tk) w =
  (settle "Token refresh failed: " (parsedOr "Token refresh failed: ")
     (net (trace w) RefreshUser {| headers := bearerHeaders (Some tk); body := None |}),
   logged (EvFetch RefreshUser {| headers := bearerHeaders (Some tk); body := None |}) w).
Proof. unfold AuthService.refreshToken, settle, parsedOr. service. Qed.

Lemma settle_wrapped {e A} (wrap : string) (k : Response e -> Completion A)
    (o : FetchOutcome e) (err : JsError) :
  (forall r err', k r = Rejected err' ->
     errName err' = "Error" /\ startsWith wrap (errMessage err')) ->
  settle wrap k o = Rejected err ->
  errName err = "Error" /\ startsWith wrap (errMessage err).
Proof.
  intros Hk. unfold settle. destruct o as [e0|r].
  - intros [= <-]. split; [reflexivity|]. eexists; reflexivity.
  - destruct (ok r); [apply Hk|].
    intros [= <-]. split; [reflexivity|]. eexists; reflexivity.
Qed.

Lemma parsedOr_wrapped {e} (wrap : string) (r : Response e) (err : JsError) :
  parsedOr wrap r = Rejected err ->
  errName err = "Error" /\ startsWith wrap (errMessage err).
Proof.
  unfold parsedOr. destruct (parsed r); [|discriminate].
  intros [= <-]. split; [reflexivity|]. eexists; reflexivity.
Qed.

(** X9.  Whatever goes wrong inside a service (the request cannot be sent,
    the status is outside 200-299, the body does not parse), what the service
    throws is a plain [Error] whose message begins with the service's own
    prefix; the error of [fetch] or of the parser never leaves a service
    as it is. *)
Theorem service_errors_are_wrapped (net : Backend) (w : World) (err : JsError) :
  let wrapped (prefix : string) :=
    errName err = "Error" /\ startsWith prefix (errMessage err) in
  (forall u p, fst (run net (AuthService.login u p) w) = Rejected err ->
     wrapped "Login failed: ") /\
  (fst (run net AuthService.logout w) = Rejected err ->
     wrapped "Logout failed: ") /\
  (forall tk, fst (run net (AuthService.refreshToken tk) w) = Rejected err ->
     wrapped "Token refresh failed: ") /\
  (fst (run net GameService.checkVersion w) = Rejected err ->
     wrapped "Failed to check version: ") /\
  (forall v path cb,
     fst (run net (GameService.downloadGame v path cb) w) = Rejected err ->
     wrapped "Failed to download game: ") /\
  (forall tk path, fst (run net (GameService.launchGame tk path) w) = Rejected err ->
     wrapped "Failed to launch game: ") /\
  (forall st, fst (run net (SettingsService.saveSettings st) w) = Rejected err ->
     wrapped "Failed to save settings: ").
Proof.
  cbv zeta. repeat apply conj.
  - intros u p. rewrite run_login. cbn [fst].
    apply settle_wrapped. intros r err'. apply (@parsedOr_wrapped LoginUser).
  - rewrite run_authLogout. cbn [fst].
    destruct (net (trace w) LogoutUser _); [|discriminate].
    intros [= <-]. split; [reflexivity|]. eexists; reflexivity.
  - intros tk. rewrite run_refreshToken. cbn [fst].
    apply settle_wrapped. intros r err'. apply (@parsedOr_wrapped RefreshUser).
  - rewrite run_checkVersion. cbn [fst].
    apply settle_wrapped. intros r err'. apply (@parsedOr_wrapped GameVersionInfo).
  - intros v path cb. rewrite run_serviceDownload. cbn [fst].
    apply settle_wrapped. intros r err'.
    destruct (parsedOr _ r) as [x|e0] eqn:E; [discriminate|].
    intros [= <-]. exact (parsedOr_wrapped _ r e0 E).
  - intros tk path. rewrite run_serviceLaunch. cbn [fst].
    apply settle_wrapped. discriminate.
  - intros st. rewrite run_saveSettings. cbn [fst].
    apply settle_wrapped. discriminate.
Qed.

Lemma service_errors_are_wrapped_witness :
  fst (run Scenario.offline GameService.checkVersion Scenario.fresh)
    = Rejected (newError "Failed to check version: TypeError: Failed to fetch") /\
  startsWith "Failed to check version: "
    "Failed to check version: TypeError: Failed to fetch".
Proof.
  split; [reflexivity|].
  pose proof (service_errors_are_wrapped Scenario.offline Scenario.fresh
                (newError "Failed to check version: TypeError: Failed to fetch"))
    as (_ & _ & _ & H & _).
  exact (proj2 (H eq_refl)).
Defined.

Lemma ok_bounds {e} (r : Response e) :
  ok r = true <-> 200 <= status r <= 299.
Proof.
  unfold ok. rewrite Bool.andb_true_iff, !Nat.leb_le. reflexivity.
Qed.

(** X10.  The calls that return what the backend sent ([login],
    [refreshToken], [checkVersion]) resolve with a value exactly when the
    request is answered with a status from 200 to 299 and a body that
    parses to that value; 199 and 300 are failures.  [launchGame] and
    [saveSettings] resolve exactly when the status is in that range and never
    read the body. *)
Theorem services_resolve_on_2xx (net : Backend) (w : World) :
  let answered {e} (o : FetchOutcome e) (v : payload e) :=
    exists r, o = Responded r /\ 200 <= status r <= 299 /\ parsed r = inr v in
  let accepted {e} (o : FetchOutcome e) :=
    exists r, o = Responded r /\ 200 <= status r <= 299 in
  (forall u p (v : AuthResponse.t),
     fst (run net (AuthService.login u p) w) = Resolved v <->
     answered (net (trace w) LoginUser (AuthService.loginRequest u p)) v) /\
  (forall tk (v : AuthResponse.t),
     fst (run net (AuthService.refreshToken tk) w) = Resolved v <->
     answered (net (trace w) RefreshUser
                 {| headers := bearerHeaders (Some tk); body := None |}) v) /\
  (forall v : GameVersion.t,
     fst (run net GameService.checkVersion w) = Resolved v <->
     answered (net (trace w) GameVersionInfo GameService.versionRequest) v) /\
  (forall tk path,
     fst (run net (GameService.launchGame tk path) w) = Resolved tt <->
     accepted (net (trace w) GameLaunch (GameService.launchRequest tk path))) /\
  (forall st,
     fst (run net (SettingsService.saveSettings st) w) = Resolved tt <->
     accepted (net (trace w) SettingsSave
                 (SettingsService.saveRequest (localStorage w "token") st))).
Proof.
  cbv zeta.
  assert (Hparse : forall e wrap (o : FetchOutcome e) (v : payload e),
            settle wrap (parsedOr wrap) o = Resolved v <->
            exists r, o = Responded r /\ 200 <= status r <= 299 /\ parsed r = inr v).
  { intros e wrap o v. unfold settle, parsedOr. split.
    - destruct o as [e0|r]; [discriminate|].
      destruct (ok r) eqn:Hok; [|discriminate].
      destruct (parsed r) as [e0|v0] eqn:Hp; [discriminate|].
      intros [= ->]. exists r. rewrite <- ok_bounds. auto.
    - intros (r & -> & Hb & Hp). apply ok_bounds in Hb. rewrite Hb, Hp. reflexivity. }
  assert (Hacc : forall e wrap (o : FetchOutcome e),
            settle wrap (fun _ => Resolved tt) o = Resolved tt <->
            exists r, o = Responded r /\ 200 <= status r <= 299).
  { intros e wrap o. unfold settle. split.
    - destruct o as [e0|r]; [discriminate|].
      destruct (ok r) eqn:Hok; [|discriminate].
      intros _. exists r. rewrite <- ok_bounds. auto.
    - intros (r & -> & Hb). apply ok_bounds in Hb. rewrite Hb. reflexivity. }
  repeat apply conj; intros.
  - rewrite run_login. cbn [fst]. apply (Hparse LoginUser).
  - rewrite run_refreshToken. cbn [fst]. apply (Hparse RefreshUser).
  - rewrite run_checkVersion. cbn [fst]. apply (Hparse GameVersionInfo).
  - rewrite run_serviceLaunch. cbn [fst]. apply (Hacc GameLaunch).
  - rewrite run_saveSettings. cbn [fst]. apply (Hacc SettingsSave).
Qed.

(** X11.  Loading the settings cannot fail: it resolves with the settings
    of the backend when the answer has a status from 200 to 299 and parses,
    and with the built-in defaults (empty install path, auto-update on,
    language "en") in every other case. *)
Theorem getSettings_falls_back_to_defaults (net : Backend) (w : World) :
  fst (run net SettingsService.getSettings w) =
  Resolved
    match net (trace w) SettingsLoad
            {| headers := bearerHeaders (localStorage w "token"); body := None |} with
    | NetworkFailure _ => SettingsService.defaults
    | Responded r =>
        if ok r then
          match parsed r with
          | inr settings => settings
          | inl _ => SettingsService.defaults
          end
        else SettingsService.defaults
    end.
Proof.
  unfold SettingsService.getSettings. exec.
  destruct (net (trace w) SettingsLoad _) as [err|r]; exec; [reflexivity|].
  destruct (ok r); exec; [|reflexivity].
  unfold json. destruct (parsed r); reflexivity.
Qed.

(* ===================================================================== *)
(** ** Downloads, tokens and the screens *)
(* ===================================================================== *)

(** X12.  The progress callback handed to [GameService.downloadGame] is
    never called: the service runs the same with any two callbacks, and when
    [downloadGame] has completed, successfully or not, [downloadProgress] is
    still the record it started with, zero bytes of [fileSize]. *)
Theorem download_progress_never_advances
    (net : Backend) (w : World) (gv : GameVersion.t) (st : LauncherSettings.t) :
  State.gameVersion (store w) = Some gv ->
  State.settings (store w) = Some st ->
  (forall v path (cb1 cb2 : DownloadProgress.t -> Action unit),
     run net (GameService.downloadGame v path cb1) w =
     run net (GameService.downloadGame v path cb2) w) /\
  State.downloadProgress (store (snd (run net Store.downloadGame w))) =
    Some {| DownloadProgress.downloadedBytes := 0%Z;
            DownloadProgress.totalBytes := GameVersion.fileSize gv;
            DownloadProgress.progressPercent := 0%Z;
            DownloadProgress.speedMbps := 0%Z |}.
Proof.
  intros Hgv Hst. split.
  - intros v path cb1 cb2. rewrite !run_serviceDownload. reflexivity.
  - rewrite (run_downloadGame net w gv st (fun _ => Return tt) Hgv Hst). cbv zeta.
    destruct w as [[a u tk gv0 iv ls dp em st0] lsto tr].
    destruct (fst (run net _ _)); reflexivity.
Qed.

Lemma download_progress_never_advances_witness :
  State.gameVersion (store (Scenario.loggedIn "abc")) = Some (Scenario.release "abc") /\
  State.launcherStatus
    (store (snd (run (Scenario.online "abc" "x") Store.downloadGame
                   (Scenario.loggedIn "abc")))) = READY /\
  State.downloadProgress
    (store (snd (run (Scenario.online "abc" "x") Store.downloadGame
                   (Scenario.loggedIn "abc")))) =
    Some {| DownloadProgress.downloadedBytes := 0%Z;
            DownloadProgress.totalBytes := 1000%Z;
            DownloadProgress.progressPercent := 0%Z;
            DownloadProgress.speedMbps := 0%Z |}.
Proof.
  split; [reflexivity|]. split; [reflexivity|].
  exact (proj2 (download_progress_never_advances (Scenario.online "abc" "x")
                  (Scenario.loggedIn "abc") (Scenario.release "abc") Scenario.settings
                  eq_refl eq_refl)).
Defined.

Lemma performAll_localStorage net acts w :
  localStorage (performAll net acts w) = localStorage w.
Proof.
  unfold performAll. revert w.
  induction acts as [|a acts IH]; intros w; cbn [fold_left]; [reflexivity|].
  rewrite IH. apply run_localStorage.
Qed.

(** X13.  The bearer token of a download request is the ["token"] entry of
    [localStorage], and no action writes [localStorage]: whatever actions
    ran before, a login included, the request that [downloadGame] sends
    carries the credential that was in [localStorage] at the start, not the
    token held in the store. *)
Theorem download_bearer_is_from_localStorage
    (net net' : Backend) (acts : list StoreAction) (w : World)
    (gv : GameVersion.t) (st : LauncherSettings.t) :
  let w1 := performAll net acts w in
  State.gameVersion (store w1) = Some gv ->
  State.settings (store w1) = Some st ->
  trace (snd (run net' Store.downloadGame w1)) =
    (trace w1 ++
     [EvFetch GameDownload
        {| headers := [("Authorization", ("Bearer " ++ showNullable (localStorage w "token"))%string);
                       ("Content-Type", "application/json")];
           body := Some [("version", JString (GameVersion.version gv));
                         ("installPath", JString (LauncherSettings.installPath st))] |}])%list.
Proof.
  cbv zeta. intros Hgv Hst.
  rewrite (run_downloadGame net' _ gv st (fun _ => Return tt) Hgv Hst). cbv zeta.
  rewrite performAll_localStorage.
  destruct (fst (run net' _ _)); reflexivity.
Qed.

Lemma download_bearer_is_from_localStorage_witness :
  let w1 := performAll (Scenario.online "abc" "x") [DoLogin "admin" "admin123"]
              (Scenario.loggedIn "abc") in
  State.token (store w1) = Some "jwt-admin" /\
  exists rest,
    trace (snd (run (Scenario.online "abc" "x") Store.downloadGame w1)) =
    (trace w1 ++
     [EvFetch GameDownload
        {| headers := ("Authorization", "Bearer null") :: rest;
           body := Some [("version", JString "1.2.3");
                         ("installPath", JString "C:\Games\RemakeSoF")] |}])%list.
Proof.
  cbv zeta. split; [reflexivity|]. eexists.
  exact (download_bearer_is_from_localStorage
           (Scenario.online "abc" "x") (Scenario.online "abc" "x")
           [DoLogin "admin" "admin123"] (Scenario.loggedIn "abc")
           (Scenario.release "abc") Scenario.settings eq_refl eq_refl).
Defined.

Lemma status_dispatch (ls : LauncherStatus) :
  ls <> READY -> ls <> IDLE ->
  LauncherStatus_eqb ls READY = false /\ LauncherStatus_eqb ls IDLE = false.
Proof. destruct ls; intros H1 H2; try contradiction; split; reflexivity. Qed.

(** X14.  The click handler of the play button acts in two statuses only:
    in [READY] it is [launchGame], in [IDLE] it is [downloadGame]; in every
    other status it changes nothing and sends nothing.  That includes
    [ERROR], where the button is enabled and reads RETRY. *)
Theorem handlePlayClick_dispatch (net : Backend) (w : World) :
  (State.launcherStatus (store w) = READY ->
   run net LauncherScreen.handlePlayClick w = run net Store.launchGame w) /\
  (State.launcherStatus (store w) = IDLE ->
   run net LauncherScreen.handlePlayClick w = run net Store.downloadGame w) /\
  (State.launcherStatus (store w) <> READY ->
   State.launcherStatus (store w) <> IDLE ->
   run net LauncherScreen.handlePlayClick w = (Resolved tt, w)) /\
  (State.launcherStatus (store w) = ERROR ->
   LauncherScreen.isButtonDisabled (State.launcherStatus (store w)) = false /\
   LauncherScreen.getButtonText (State.launcherStatus (store w)) = "RETRY" /\
   run net LauncherScreen.playButton_onClick w = (Resolved tt, w)).
Proof.
  unfold LauncherScreen.playButton_onClick, LauncherScreen.handlePlayClick.
  cbn [run bind get]. repeat apply conj.
  - intros ->. reflexivity.
  - intros ->. reflexivity.
  - intros H1 H2. destruct (status_dispatch _ H1 H2) as [-> ->]. reflexivity.
  - intros H. rewrite H. split; [reflexivity|]. split; [reflexivity|].
    cbn [LauncherScreen.isButtonDisabled LauncherStatus_eqb orb run].
    rewrite H. reflexivity.
Qed.

Lemma handlePlayClick_dispatch_witness :
  let w := snd (run Scenario.offline Store.checkGameVersion (Scenario.loggedIn "abc")) in
  State.launcherStatus (store w) = ERROR /\
  LauncherScreen.getButtonText (State.launcherStatus (store w)) = "RETRY" /\
  run (Scenario.online "abc" "x") LauncherScreen.playButton_onClick w = (Resolved tt, w).
Proof.
  cbv zeta.
  pose proof (handlePlayClick_dispatch (Scenario.online "abc" "x")
                (snd (run Scenario.offline Store.checkGameVersion (Scenario.loggedIn "abc"))))
    as (_ & _ & _ & H).
  destruct (H eq_refl) as (_ & Ht & Hc).
  split; [reflexivity|]. split; assumption.
Defined.



(** X16.  After a version check, however it ended, the play button cannot
    start a download: its click handler either sends nothing or sends one
    launch request. *)
Theorem no_download_after_version_check (net net' : Backend) (w : World) :
  let w1 := snd (run net Store.checkGameVersion w) in
  let w2 := snd (run net' LauncherScreen.handlePlayClick w1) in
  trace w2 = trace w1 \/
  exists init, trace w2 = (trace w1 ++ [EvFetch GameLaunch init])%list.
Proof.
  cbv zeta.
  destruct (perform_effect net DoCheckGameVersion w) as (ps & He & Hps).
  cbn [perform] in Hps.
  set (w1 := snd (run net Store.checkGameVersion w)) in *.
  unfold LauncherScreen.handlePlayClick. cbn [run bind get]. rewrite Hps.
  assert (Hst : State.launcherStatus (Patch.merge (store w) ps) = READY \/
                State.launcherStatus (Patch.merge (store w) ps) = ERROR).
  { destruct (store w). inversion He; subst; [left|right]; reflexivity. }
  destruct Hst as [-> | ->]; cbn [LauncherStatus_eqb].
  - destruct (launch_guard (store w1)) as [H|(tk & st & Htk & Hne & Hst)].
    + rewrite (run_storeLaunch_refused net' w1 H). left. reflexivity.
    + rewrite (run_storeLaunch net' w1 tk st Htk Hne Hst). cbv zeta.
      right. eexists. destruct (fst (run net' _ w1)); reflexivity.
  - left. reflexivity.
Qed.


(** X18.  While the version check, a download or a launch waits for the
    answer of the backend, the status is [CHECKING_VERSION], [DOWNLOADING] or
    [PLAYING], the play button is disabled and a click on it changes nothing:
    the screen cannot start a second request on top of the first. *)
Theorem play_button_blocked_in_flight (net : Backend) (a : StoreAction) (w : World) :
  match a with
  | DoCheckGameVersion => True
  | DoDownloadGame =>
      State.gameVersion (store w) <> None /\ State.settings (store w) <> None
  | DoLaunchGame =>
      (exists tk, State.token (store w) = Some tk /\ tk <> "") /\
      State.settings (store w) <> None
  | _ => False
  end ->
  let w1 := snd (toAwait (perform a) w) in
  State.launcherStatus (store w1) =
    match a with
    | DoCheckGameVersion => CHECKING_VERSION
    | DoDownloadGame => DOWNLOADING
    | _ => PLAYING
    end /\
  List.length (trace w1) = S (List.length (trace w)) /\
  LauncherScreen.isButtonDisabled (State.launcherStatus (store w1)) = true /\
  run net LauncherScreen.playButton_onClick w1 = (Resolved tt, w1).
Proof.
  intros Ha.
  assert (Hgo : forall (ls : LauncherStatus) (w1 : World),
            State.launcherStatus (store w1) = ls ->
            LauncherScreen.isButtonDisabled ls = true ->
            LauncherScreen.isButtonDisabled (State.launcherStatus (store w1)) = true /\
            run net LauncherScreen.playButton_onClick w1 = (Resolved tt, w1)).
  { intros ls w1 Hs Hd. rewrite Hs. split; [exact Hd|].
    unfold LauncherScreen.playButton_onClick. cbn [run bind get].
    rewrite Hs, Hd. reflexivity. }
  destruct a as [u p| | | | |s|]; try contradiction; cbn [perform]; cbv zeta.
  - assert (Hw : snd (toAwait Store.checkGameVersion w) =
                 logged (EvFetch GameVersionInfo GameService.versionRequest)
                   (withStore (Patch.merge (store w)
                                 [Patch.launcherStatus CHECKING_VERSION]) w)) by reflexivity.
    rewrite Hw. destruct w as [[au us tk gv iv ls dp em st] lsto tr].
    split; [reflexivity|]. split; [cbn; rewrite List.length_app, Nat.add_comm; reflexivity|].
    apply (Hgo CHECKING_VERSION); reflexivity.
  - destruct Ha as [Hgv Hst].
    destruct (State.gameVersion (store w)) as [gv|] eqn:Egv; [|contradiction].
    destruct (State.settings (store w)) as [st|] eqn:Est; [|contradiction].
    rewrite (toAwait_downloadGame w gv st Egv Est).
    destruct w as [[au us tk gv0 iv ls dp em st0] lsto tr].
    split; [reflexivity|]. split; [cbn; rewrite List.length_app, Nat.add_comm; reflexivity|].
    apply (Hgo DOWNLOADING); reflexivity.
  - destruct Ha as [(tk & Htk & Hne) Hst].
    destruct (State.settings (store w)) as [st|] eqn:Est; [|contradiction].
    rewrite (toAwait_storeLaunch w tk st Htk Hne Est).
    destruct w as [[au us tk0 gv iv ls dp em st0] lsto tr].
    split; [reflexivity|]. split; [cbn; rewrite List.length_app, Nat.add_comm; reflexivity|].
    apply (Hgo PLAYING); reflexivity.
Qed.

Lemma play_button_blocked_in_flight_witness :
  let w1 := snd (toAwait (perform DoLaunchGame) (Scenario.loggedIn "abc")) in
  State.launcherStatus (store w1) = PLAYING /\
  run Scenario.offline LauncherScreen.playButton_onClick w1 = (Resolved tt, w1).
Proof.
  cbv zeta.
  assert (Hne : "jwt-admin" <> "") by discriminate.
  destruct (play_button_blocked_in_flight Scenario.offline DoLaunchGame
              (Scenario.loggedIn "abc"))
    as (Hs & _ & _ & Hc).
  - split; [exists "jwt-admin"; split; [reflexivity|exact Hne]|discriminate].
  - split; assumption.
Defined.
